(** * The buffer interface of ndarray (numpy/core/src/multiarray/buffer.c)

    A shallow embedding of the PEP 3118 exporter of the array object: the
    format-string translator ([_append_char], [_append_str],
    [_buffer_format_string]), the exporter [array_getbuffer] with its
    per-array cache of shape and strides, the release of that cache
    ([_array_dealloc_buffer_info]) and the old single-segment accessors.

    The C code works on the C heap through [malloc], [realloc] and [free] and
    on objects shared by reference (the array, its descriptor).  The embedding
    keeps both: a block-structured heap with an oracle for the allocator's
    answers, and stores of array and descriptor objects addressed by index.
    A run ends normally ([Done]), in undefined behaviour at a bad memory
    access ([Fault]), or in [abort()] at a failed [assert] ([Abort]). *)

From Stdlib Require Import ZArith String Ascii DecimalString Lia.
From stdpp Require Import base list strings.

Local Open Scope Z_scope.

(** ** Pointers and heap blocks *)

(** A pointer is NULL ([None]) or a block with an offset counted in elements
    of the pointed-to type. *)
Definition pointer : Type := option (nat * Z).

Definition NULL : pointer := None.

Definition is_null (p : pointer) : bool :=
  match p with None => true | Some _ => false end.

(** [p + n] of C; on NULL, where C defines nothing, it is left NULL. *)
Definition ptr_add (p : pointer) (n : Z) : pointer :=
  match p with
  | None => None
  | Some (b, o) => Some (b, o + n)
  end.

(** [typedef struct { char *format; int nd; Py_ssize_t *strides;
    Py_ssize_t *shape; } _buffer_data;] *)
Record _buffer_data := mk_buffer_data {
  cache_format : pointer;
  cache_nd : Z;
  cache_strides : pointer;
  cache_shape : pointer }.

(** What a block obtained from [malloc] holds. *)
Inductive block :=
  | Chars (cs : list ascii)
  | Words (ws : list Z)
  | Cache (c : option _buffer_data)
  | Freed.

(** ** Objects *)

(** The type numbers that the translator's [switch] names; every other value
    of [type_num] keeps its number, which the error message prints. *)
Inductive NPY_TYPES :=
  | NPY_BYTE | NPY_UBYTE | NPY_SHORT | NPY_USHORT | NPY_INT | NPY_UINT
  | NPY_LONG | NPY_ULONG | NPY_LONGLONG | NPY_ULONGLONG
  | NPY_FLOAT | NPY_DOUBLE | NPY_LONGDOUBLE
  | NPY_CFLOAT | NPY_CDOUBLE | NPY_CLONGDOUBLE
  | NPY_STRING | NPY_UNICODE | NPY_OBJECT
  | NPY_OTHER (code : Z).

(** [PyArray_Descr], with the members the exporter reads.  [subarray] is
    whether the member is non-NULL.  [fields] is [None] when [names] is NULL
    (no fields); otherwise its k-th entry is [names[k]] together with the
    pair [(child, offset)] that the [fields] dictionary gives for that name.
    Field names are byte strings. *)
#[warnings="-register-all"]
Inductive PyArray_Descr := mk_descr {
  type_num : NPY_TYPES;
  byteorder : ascii;
  elsize : Z;
  subarray : bool;
  fields : option (list (string * PyArray_Descr * Z));
  buffer_format : pointer }.

(** [PyArrayObject]; [descr] is the index of the descriptor in the store,
    [buffer_info] points to the heap block of the cache. *)
Record PyArrayObject := mk_array {
  ob_refcnt : Z;
  data : Z;
  nd : Z;
  dimensions : list Z;
  strides : list Z;
  descr : nat;
  flags : Z;
  buffer_info : pointer }.

(** [Py_buffer]. *)
Record Py_buffer := mk_view {
  view_buf : Z;
  view_obj : option nat;
  view_len : Z;
  view_itemsize : Z;
  view_readonly : bool;
  view_ndim : Z;
  view_format : pointer;
  view_shape : pointer;
  view_strides : pointer;
  view_suboffsets : pointer;
  view_internal : pointer }.

(** [typedef struct { char *s; int allocated; int pos; } _tmp_string;] *)
Record _tmp_string := mk_tmp {
  tmp_s : pointer;
  tmp_allocated : Z;
  tmp_pos : Z }.

Inductive PyExc := PyExc_ValueError | PyExc_MemoryError.

(** ** Machine state *)

(** [oracle] lists the answers of the coming [malloc] and [realloc] calls
    ([false]: the call returns NULL); once it is used up every call
    succeeds.  [pyerr] is the interpreter's error indicator. *)
Record state := mk_state {
  mem : list block;
  oracle : list bool;
  arrays : list PyArrayObject;
  descrs : list PyArray_Descr;
  pyerr : option (PyExc * string) }.

Definition set_mem (m : list block) (st : state) : state :=
  mk_state m (oracle st) (arrays st) (descrs st) (pyerr st).
Definition set_oracle (o : list bool) (st : state) : state :=
  mk_state (mem st) o (arrays st) (descrs st) (pyerr st).
Definition set_arrays (a : list PyArrayObject) (st : state) : state :=
  mk_state (mem st) (oracle st) a (descrs st) (pyerr st).
Definition set_descrs (d : list PyArray_Descr) (st : state) : state :=
  mk_state (mem st) (oracle st) (arrays st) d (pyerr st).
Definition set_pyerr (e : option (PyExc * string)) (st : state) : state :=
  mk_state (mem st) (oracle st) (arrays st) (descrs st) e.

Inductive outcome (A : Type) :=
  | Done (a : A) (st : state)
  | Fault (st : state)
  | Abort (st : state).
Arguments Done {A} a st.
Arguments Fault {A} st.
Arguments Abort {A} st.

Definition M (A : Type) : Type := state -> outcome A.

Definition ret {A} (a : A) : M A := fun st => Done a st.

Definition bind {A B} (m : M A) (k : A -> M B) : M B := fun st =>
  match m st with
  | Done a st' => k a st'
  | Fault st' => Fault st'
  | Abort st' => Abort st'
  end.

Notation "'let*' x := m 'in' k" := (bind m (fun x => k))
  (at level 10, x name, m at level 100, k at level 200).
Notation "'let*' ' pat := m 'in' k" :=
  (bind m (fun x => match x with pat => k end))
  (at level 10, pat pattern, m at level 100, k at level 200).
Notation "m ;; k" := (bind m (fun _ => k))
  (at level 100, k at level 200, right associativity).

(** ** The allocator *)

(** [malloc]: NULL when the oracle says so, otherwise a block never used
    before, holding [init]. *)
Definition malloc (init : block) : M pointer := fun st =>
  match oracle st with
  | false :: o => Done NULL (set_oracle o st)
  | o => Done (Some (length (mem st), 0))
              (set_oracle (tail o) (set_mem (mem st ++ [init]) st))
  end.

(** [free]: of NULL nothing; of the start of a live block its release;
    anything else is undefined. *)
Definition free (p : pointer) : M unit := fun st =>
  match p with
  | None => Done tt st
  | Some (b, o) =>
      match mem st !! b with
      | Some Freed | None => Fault st
      | Some _ =>
          if o =? 0 then Done tt (set_mem (<[b := Freed]> (mem st)) st)
          else Fault st
      end
  end.

Definition NUL : ascii := "000"%char.

(** [realloc] of a character buffer to [n] bytes: on failure NULL and the
    old block stays; on success the contents move to a fresh block and the
    old one is released. *)
Definition realloc (p : pointer) (n : Z) : M pointer := fun st =>
  match p with
  | None => malloc (Chars (replicate (Z.to_nat n) NUL)) st
  | Some (b, o) =>
      match mem st !! b with
      | Some (Chars cs) =>
          if o =? 0 then
            match oracle st with
            | false :: o' => Done NULL (set_oracle o' st)
            | o' =>
                let cs' := take (Z.to_nat n) cs
                           ++ replicate (Z.to_nat n - length cs) NUL in
                Done (Some (length (mem st), 0))
                     (set_oracle (tail o')
                        (set_mem (<[b := Freed]> (mem st) ++ [Chars cs']) st))
            end
          else Fault st
      | _ => Fault st
      end
  end.

(** [p[k] = c] on characters. *)
Definition store_char (p : pointer) (k : Z) (c : ascii) : M unit := fun st =>
  match p with
  | None => Fault st
  | Some (b, o) =>
      match mem st !! b with
      | Some (Chars cs) =>
          if (0 <=? o + k) && (o + k <? Z.of_nat (length cs)) then
            Done tt (set_mem (<[b := Chars (<[Z.to_nat (o + k) := c]> cs)]> (mem st)) st)
          else Fault st
      | _ => Fault st
      end
  end.

(** [p[k]] and [p[k] = v] on [Py_ssize_t]. *)
Definition read_word (m : list block) (p : pointer) (k : Z) : option Z :=
  match p with
  | None => None
  | Some (b, o) =>
      match m !! b with
      | Some (Words ws) =>
          if 0 <=? o + k then ws !! Z.to_nat (o + k) else None
      | _ => None
      end
  end.

Definition load_word (p : pointer) (k : Z) : M Z := fun st =>
  match read_word (mem st) p k with
  | Some v => Done v st
  | None => Fault st
  end.

Definition store_word (p : pointer) (k : Z) (v : Z) : M unit := fun st =>
  match p with
  | None => Fault st
  | Some (b, o) =>
      match mem st !! b with
      | Some (Words ws) =>
          if (0 <=? o + k) && (o + k <? Z.of_nat (length ws)) then
            Done tt (set_mem (<[b := Words (<[Z.to_nat (o + k) := v]> ws)]> (mem st)) st)
          else Fault st
      | _ => Fault st
      end
  end.

(** Reading and writing the [_buffer_data] struct behind a pointer; a block
    fresh from [malloc] holds no defined struct yet. *)
Definition load_cache (p : pointer) : M _buffer_data := fun st =>
  match p with
  | Some (b, 0) =>
      match mem st !! b with
      | Some (Cache (Some c)) => Done c st
      | _ => Fault st
      end
  | _ => Fault st
  end.

Definition store_cache (p : pointer) (c : _buffer_data) : M unit := fun st =>
  match p with
  | Some (b, 0) =>
      match mem st !! b with
      | Some (Cache _) => Done tt (set_mem (<[b := Cache (Some c)]> (mem st)) st)
      | _ => Fault st
      end
  | _ => Fault st
  end.

(** ** The object stores *)

Definition get_array (obj : nat) : M PyArrayObject := fun st =>
  match arrays st !! obj with
  | Some a => Done a st
  | None => Fault st
  end.

Definition put_array (obj : nat) (a : PyArrayObject) : M unit := fun st =>
  Done tt (set_arrays (<[obj := a]> (arrays st)) st).

Definition get_descr (d : nat) : M PyArray_Descr := fun st =>
  match descrs st !! d with
  | Some x => Done x st
  | None => Fault st
  end.

Definition put_descr (d : nat) (x : PyArray_Descr) : M unit := fun st =>
  Done tt (set_descrs (<[d := x]> (descrs st)) st).

Definition PyErr_SetString (e : PyExc) (msg : string) : M unit := fun st =>
  Done tt (set_pyerr (Some (e, msg)) st).

(** [%d] of [PyOS_snprintf] and [PyErr_Format]. *)
Definition fmt_d (n : Z) : string := NilZero.string_of_int (Z.to_int n).

(** ** What the headers provide

    [buffer.c] is compiled against Python's [object.h] (the [PyBUF_] request
    masks, [assert]) and NumPy's [ndarrayobject.h] (the array flag masks and
    the [PyArray_] macros).  Neither header is part of the file verified
    here, so what they define is a parameter of the development; [NDEBUG]
    tells whether [assert] is compiled out. *)
Class Headers := {
  PyBUF_WRITABLE : Z;
  PyBUF_FORMAT : Z;
  PyBUF_STRIDED : Z;
  PyBUF_C_CONTIGUOUS : Z;
  PyBUF_F_CONTIGUOUS : Z;
  PyBUF_ANY_CONTIGUOUS : Z;
  NPY_C_CONTIGUOUS : Z;
  NPY_F_CONTIGUOUS : Z;
  WRITEABLE : Z;
  PyArray_CHKFLAGS : PyArrayObject -> Z -> bool;
  PyArray_ISONESEGMENT : PyArrayObject -> bool;
  PyArray_ISWRITEABLE : PyArrayObject -> bool;
  PyArray_SIZE : PyArrayObject -> Z;
  NDEBUG : bool }.

(** The member accessors among the macros. *)
Definition PyArray_NDIM (self : PyArrayObject) : Z := nd self.
Definition PyArray_DIMS (self : PyArrayObject) : list Z := dimensions self.
Definition PyArray_STRIDES (self : PyArrayObject) : list Z := strides self.
Definition PyArray_DATA (self : PyArrayObject) : Z := data self.
Definition PyArray_DESCR (self : PyArrayObject) : M PyArray_Descr :=
  get_descr (descr self).
Definition PyDataType_HASFIELDS (d : PyArray_Descr) : bool :=
  match fields d with Some _ => true | None => false end.

(** [a[k]] on an array member of the object itself; reading past its end is
    undefined. *)
Definition elem (a : list Z) (k : Z) : option Z :=
  if 0 <=? k then a !! Z.to_nat k else None.

Definition array_elem (a : list Z) (k : Z) : M Z := fun st =>
  match elem a k with
  | Some v => Done v st
  | None => Fault st
  end.

(** [(flags & mask) == mask] *)
Definition has_flags (flags mask : Z) : bool := Z.land flags mask =? mask.

Section Buffer.
Context `{Headers}.

Definition assert (b : bool) : M unit := fun st =>
  if NDEBUG || b then Done tt st else Abort st.

Definition PyArray_ITEMSIZE (self : PyArrayObject) : M Z :=
  let* d := PyArray_DESCR self in ret (elsize d).

Definition PyArray_NBYTES (self : PyArrayObject) : M Z :=
  let* sz := PyArray_ITEMSIZE self in ret (sz * PyArray_SIZE self).

(** ** The old single-segment accessors *)


(** The results are the returned length and what is left in [*ptrptr]
    ([None]: not written; address 0 is NULL). *)
Definition array_getreadbuf (obj : nat) (segment : Z) : M (Z * option Z) :=
  let* self := get_array obj in
  if negb (segment =? 0) then
    PyErr_SetString PyExc_ValueError "accessing non-existing array segment" ;;
    ret (-1, None)
  else if PyArray_ISONESEGMENT self then
    let* n := PyArray_NBYTES self in
    ret (n, Some (data self))
  else
    PyErr_SetString PyExc_ValueError "array is not a single segment" ;;
    ret (-1, Some 0).

Definition array_getwritebuf (obj : nat) (segment : Z) : M (Z * option Z) :=
  let* self := get_array obj in
  if PyArray_CHKFLAGS self WRITEABLE then array_getreadbuf obj segment
  else
    PyErr_SetString PyExc_ValueError
      "array cannot be accessed as a writeable buffer" ;;
    ret (-1, None).


(** ** The format string translator *)

(** The result is the returned [int] and the [_tmp_string] as the call
    leaves it.  A first [malloc] that fails is not looked at: the write
    below it then goes through NULL. *)
Definition _append_char (s : _tmp_string) (c : ascii) : M (Z * _tmp_string) :=
  let* s :=
    (if is_null (tmp_s s) then
       let* p := malloc (Chars (replicate 16 NUL)) in
       ret (mk_tmp p 16 0)
     else ret s) in
  let* grown :=
    (if tmp_allocated s <=? tmp_pos s then
       let* p := realloc (tmp_s s) (2 * tmp_allocated s) in
       if is_null p then ret None
       else ret (Some (mk_tmp p (2 * tmp_allocated s) (tmp_pos s)))
     else ret (Some s)) in
  match grown with
  | None =>
      PyErr_SetString PyExc_MemoryError "memory allocation failed" ;;
      ret (-1, s)
  | Some s =>
      store_char (tmp_s s) (tmp_pos s) c ;;
      ret (0, mk_tmp (tmp_s s) (tmp_allocated s) (tmp_pos s + 1))
  end.

(** [c] is the C string, its end standing for the terminating NUL.  The C
    function has no [return] after its loop.  Its callers test the result all
    the same; what they find is what the last [_append_char] left as its own
    result, which is 0 there, and the function is never called on an empty
    string.  The embedding returns that 0. *)
Fixpoint _append_str (s : _tmp_string) (c : string) : M (Z * _tmp_string) :=
  match c with
  | EmptyString => ret (0, s)
  | String ch c' =>
      let* '(r, s) := _append_char s ch in
      if negb (r =? 0) then ret (-1, s)
      else _append_str s c'
  end.

(** [while ( *offset < new_offset) { _append_char(str, 'x'); ++*offset; }],
    which runs [new_offset - *offset] times when that is positive. *)
Fixpoint pad_loop (n : nat) (str : _tmp_string) (offset : Z)
  : M (_tmp_string * Z) :=
  match n with
  | O => ret (str, offset)
  | S n' =>
      let* '(_, str) := _append_char str "x" in
      pad_loop n' str (offset + 1)
  end.

(** [while (len > 0) { if ( *p == ':') {...; return -1;} _append_char(str, *p);
    ++p; --len; }]; the flag tells whether the loop ran to its end. *)
Fixpoint name_loop (p : list ascii) (str : _tmp_string)
  : M (bool * _tmp_string) :=
  match p with
  | [] => ret (true, str)
  | c :: p' =>
      if Ascii.eqb c ":" then
        PyErr_SetString PyExc_ValueError
          "':' is not an allowed character in buffer field names" ;;
        ret (false, str)
      else
        let* '(_, str) := _append_char str c in
        name_loop p' str
  end.

(** [if (append(...)) return -1; break;] followed by the final [return 0]. *)
Definition emit (m : M (Z * _tmp_string)) (offset : Z)
  : M (Z * _tmp_string * Z) :=
  let* '(r, str) := m in
  ret (if r =? 0 then 0 else -1, str, offset).

Definition has_byteorder_char (d : PyArray_Descr) : bool :=
  Ascii.eqb (byteorder d) "<" || Ascii.eqb (byteorder d) ">"
  || Ascii.eqb (byteorder d) "=".

(** The loop over [descr->names] in the translator; [format_child] is the
    translator itself, called on each child.  The first result is the value
    that the enclosing function returns. *)
Definition fields_loop
    (format_child : PyArray_Descr -> _tmp_string -> Z -> M (Z * _tmp_string * Z))
  : list (string * PyArray_Descr * Z) -> _tmp_string -> Z
    -> M (Z * _tmp_string * Z) :=
  fix loop fs str offset :=
    match fs with
    | [] =>
        let* '(_, str) := _append_char str "}" in
        ret (0, str, offset)
    | (name, child, new_offset) :: fs' =>
        (* Insert padding manually *)
        let* '(str, offset) :=
          pad_loop (Z.to_nat (new_offset - offset)) str offset in
        let offset := offset + elsize child in
        (* Insert child item *)
        let* '(_, str, offset) := format_child child str offset in
        (* Insert field name *)
        let* '(_, str) := _append_char str ":" in
        let* '(ok, str) := name_loop (list_ascii_of_string name) str in
        if ok then
          let* '(_, str) := _append_char str ":" in
          loop fs' str offset
        else ret (-1, str, offset)
    end.

(** The scalar types: [switch (descr->type_num)]. *)
Definition format_scalar (descr : PyArray_Descr) (str : _tmp_string)
    (offset : Z) : M (Z * _tmp_string * Z) :=
  match type_num descr with
  | NPY_BYTE => emit (_append_char str "b") offset
  | NPY_UBYTE => emit (_append_char str "B") offset
  | NPY_SHORT => emit (_append_char str "h") offset
  | NPY_USHORT => emit (_append_char str "H") offset
  | NPY_INT => emit (_append_char str "i") offset
  | NPY_UINT => emit (_append_char str "I") offset
  | NPY_LONG => emit (_append_char str "l") offset
  | NPY_ULONG => emit (_append_char str "L") offset
  | NPY_LONGLONG => emit (_append_char str "q") offset
  | NPY_ULONGLONG => emit (_append_char str "Q") offset
  | NPY_FLOAT => emit (_append_char str "f") offset
  | NPY_DOUBLE => emit (_append_char str "d") offset
  | NPY_LONGDOUBLE => emit (_append_char str "g") offset
  | NPY_CFLOAT => emit (_append_str str "Zf") offset
  | NPY_CDOUBLE => emit (_append_str str "Zd") offset
  | NPY_CLONGDOUBLE => emit (_append_str str "Zg") offset
  | NPY_STRING =>
      let buf := (fmt_d (elsize descr) ++ "s")%string in
      emit (_append_str str buf) offset
  | NPY_UNICODE =>
      (* Numpy Unicode is always 4-byte *)
      assert (Z.rem (elsize descr) 4 =? 0) ;;
      let buf := (fmt_d (Z.quot (elsize descr) 4) ++ "w")%string in
      emit (_append_str str buf) offset
  | NPY_OBJECT => emit (_append_char str "O") offset
  | NPY_OTHER code =>
      PyErr_SetString PyExc_ValueError
        ("unknown dtype code " ++ fmt_d code)%string ;;
      ret (-1, str, offset)
  end.

(** The results are the returned [int], the [_tmp_string] and [*offset] as
    the call leaves them.  Field names being byte strings, the conversion
    [PyBytes_AsStringAndSize] cannot fail and its error branch is left out. *)
Fixpoint _buffer_format_string (descr : PyArray_Descr) (str : _tmp_string)
    (offset : Z) {struct descr} : M (Z * _tmp_string * Z) :=
  if subarray descr then
    PyErr_SetString PyExc_ValueError
      "data types with sub-arrays cannot be exported as buffers" ;;
    ret (-1, str, offset)
  else
    match fields descr with
    | Some fs =>
        let* '(_, str) := _append_str str "T{" in
        fields_loop _buffer_format_string fs str offset
    | None =>
        let* str :=
          (if has_byteorder_char descr then
             let* '(_, str) := _append_char str (byteorder descr) in ret str
           else ret str) in
        format_scalar descr str offset
    end.

(** ** Retrieving buffers *)

Definition with_buffer_info (p : pointer) (a : PyArrayObject) : PyArrayObject :=
  mk_array (ob_refcnt a) (data a) (nd a) (dimensions a) (strides a) (descr a)
    (flags a) p.

Definition Py_INCREF (a : PyArrayObject) : PyArrayObject :=
  mk_array (ob_refcnt a + 1) (data a) (nd a) (dimensions a) (strides a)
    (descr a) (flags a) (buffer_info a).

Definition with_buffer_format (p : pointer) (d : PyArray_Descr) : PyArray_Descr :=
  mk_descr (type_num d) (byteorder d) (elsize d) (subarray d) (fields d) p.

(** [view->format = f; view->shape = sh;] and so on: the members written
    together at each place of [array_getbuffer]. *)
Definition view_clear (v : Py_buffer) : Py_buffer :=
  mk_view (view_buf v) (view_obj v) (view_len v) (view_itemsize v)
    (view_readonly v) (view_ndim v) NULL NULL (view_strides v)
    (view_suboffsets v) (view_internal v).

Definition view_fill (buf itemsize : Z) (readonly : bool) (len : Z)
    (v : Py_buffer) : Py_buffer :=
  mk_view buf (view_obj v) len itemsize readonly (view_ndim v)
    (view_format v) (view_shape v) (view_strides v) NULL NULL.

Definition view_set_format (f : pointer) (v : Py_buffer) : Py_buffer :=
  mk_view (view_buf v) (view_obj v) (view_len v) (view_itemsize v)
    (view_readonly v) (view_ndim v) f (view_shape v) (view_strides v)
    (view_suboffsets v) (view_internal v).

Definition view_set_layout (ndim : Z) (shape strides : pointer)
    (v : Py_buffer) : Py_buffer :=
  mk_view (view_buf v) (view_obj v) (view_len v) (view_itemsize v)
    (view_readonly v) ndim (view_format v) shape strides
    (view_suboffsets v) (view_internal v).

Definition view_set_obj (obj : nat) (v : Py_buffer) : Py_buffer :=
  mk_view (view_buf v) (Some obj) (view_len v) (view_itemsize v)
    (view_readonly v) (view_ndim v) (view_format v) (view_shape v)
    (view_strides v) (view_suboffsets v) (view_internal v).

(** The loop that compares the cached snapshot with the array, from index
    [k] for [n] rounds; the result is [shape_changed]. *)
Fixpoint shape_changed_loop (cache : _buffer_data) (self : PyArrayObject)
    (k : Z) (n : nat) : M bool :=
  match n with
  | O => ret false
  | S n' =>
      let* cs := load_word (cache_shape cache) k in
      let* d := array_elem (PyArray_DIMS self) k in
      if negb (cs =? d) then ret true
      else
        let* ct := load_word (cache_strides cache) k in
        let* t := array_elem (PyArray_STRIDES self) k in
        if negb (ct =? t) then ret true
        else shape_changed_loop cache self (k + 1) n'
  end.

(** The loop that copies the extents and strides into the new snapshot. *)
Fixpoint snapshot_loop (cache : _buffer_data) (self : PyArrayObject)
    (k : Z) (n : nat) : M unit :=
  match n with
  | O => ret tt
  | S n' =>
      let* d := array_elem (PyArray_DIMS self) k in
      store_word (cache_shape cache) k d ;;
      let* t := array_elem (PyArray_STRIDES self) k in
      store_word (cache_strides cache) k t ;;
      snapshot_loop cache self (k + 1) n'
  end.

(** The [PyBUF_FORMAT] part of [array_getbuffer].  [None] stands for
    [goto fail], [Some f] for the value left in [view->format]. *)
Definition getbuffer_format (self : PyArrayObject) (flags : Z)
  : M (option pointer) :=
  if has_flags flags PyBUF_FORMAT then
    let* d := PyArray_DESCR self in
    if is_null (buffer_format d) then
      let* '(r, fmt, _) := _buffer_format_string d (mk_tmp NULL 0 0) 0 in
      if negb (r =? 0) then ret None
      else
        let* '(_, fmt) := _append_char fmt NUL in
        put_descr (descr self) (with_buffer_format (tmp_s fmt) d) ;;
        ret (Some (tmp_s fmt))
    else ret (Some (buffer_format d))
  else ret (Some NULL).

(** The body of [if (cache->strides == NULL || shape_changed)]: the old
    snapshot is released, a new one allocated (unchecked) and filled.  [c]
    is the struct behind [cache] as read before. *)
Definition replace_snapshot (self : PyArrayObject) (cache : pointer)
    (c : _buffer_data) : M (pointer * pointer) :=
  (if negb (is_null (cache_shape c)) then free (cache_shape c)
   else ret tt) ;;
  (* room for 2 * nd values of Py_ssize_t, and one byte *)
  let* p := malloc (Words (replicate (Z.to_nat (PyArray_NDIM self * 2)) 0)) in
  let c := mk_buffer_data (cache_format c) (PyArray_NDIM self)
             (ptr_add p (PyArray_NDIM self)) p in
  store_cache cache c ;;
  snapshot_loop c self 0 (Z.to_nat (PyArray_NDIM self)) ;;
  ret (cache_shape c, cache_strides c).

(** The [PyBUF_STRIDED] branch of [array_getbuffer]: refreshes the cache
    behind [cache] and returns the snapshot to hand out. *)
Definition getbuffer_strided (self : PyArrayObject) (cache : pointer)
  : M (pointer * pointer) :=
  let* c := load_cache cache in
  let* shape_changed :=
    (if negb (cache_nd c =? PyArray_NDIM self) then ret true
     else shape_changed_loop c self 0 (Z.to_nat (PyArray_NDIM self))) in
  if is_null (cache_strides c) || shape_changed then
    replace_snapshot self cache c
  else ret (cache_shape c, cache_strides c).

(** The start of [array_getbuffer]: the cache of the array, made on the
    first call.  The result of [malloc] is used unchecked. *)
Definition getbuffer_cache (obj : nat) (self : PyArrayObject) : M pointer :=
  if is_null (buffer_info self) then
    let* cache := malloc (Cache None) in
    store_cache cache (mk_buffer_data NULL 0 NULL NULL) ;;
    put_array obj (with_buffer_info cache self) ;;
    ret cache
  else ret (buffer_info self).

(** The results are the returned [int] and [*view] as the call leaves it;
    [view = None] is the call with a NULL [view]. *)
Definition array_getbuffer (obj : nat) (view : option Py_buffer) (flags : Z)
  : M (Z * option Py_buffer) :=
  match view with
  | None => ret (-1, None)
  | Some view =>
      let* self := get_array obj in
      let* cache := getbuffer_cache obj self in
      let view := view_clear view in
      if has_flags flags PyBUF_C_CONTIGUOUS
         && negb (PyArray_CHKFLAGS self NPY_C_CONTIGUOUS) then
        PyErr_SetString PyExc_ValueError "ndarray is not C contiguous" ;;
        ret (-1, Some view)
      else if has_flags flags PyBUF_F_CONTIGUOUS
              && negb (PyArray_CHKFLAGS self NPY_F_CONTIGUOUS) then
        PyErr_SetString PyExc_ValueError "ndarray is not Fortran contiguous" ;;
        ret (-1, Some view)
      else if has_flags flags PyBUF_ANY_CONTIGUOUS
              && negb (PyArray_ISONESEGMENT self) then
        PyErr_SetString PyExc_ValueError "ndarray is not contiguous" ;;
        ret (-1, Some view)
      else
        let* itemsize := PyArray_ITEMSIZE self in
        let* len := PyArray_NBYTES self in
        let view :=
          view_fill (PyArray_DATA self) itemsize
            (negb (PyArray_ISWRITEABLE self)) len view in
        let* fmt := getbuffer_format self flags in
        match fmt with
        | None => ret (-1, Some view)
        | Some f =>
            let view := view_set_format f view in
            if has_flags flags PyBUF_STRIDED then
              let* '(shape, strides) := getbuffer_strided self cache in
              let view :=
                view_set_layout (PyArray_NDIM self) shape strides view in
              let* self := get_array obj in
              put_array obj (Py_INCREF self) ;;
              ret (0, Some (view_set_obj obj view))
            else if PyArray_ISONESEGMENT self then
              let view := view_set_layout 0 NULL NULL view in
              let* self := get_array obj in
              put_array obj (Py_INCREF self) ;;
              ret (0, Some (view_set_obj obj view))
            else
              PyErr_SetString PyExc_ValueError "ndarray is not single-segment" ;;
              ret (-1, Some view)
        end
  end.

(** [_array_dealloc_buffer_info], called when the array is destroyed. *)
Definition _array_dealloc_buffer_info (obj : nat) : M unit :=
  let* self := get_array obj in
  let cache := buffer_info self in
  if negb (is_null cache) then
    let* c := load_cache cache in
    (if negb (is_null (cache_shape c)) then free (cache_shape c)
     else ret tt) ;;
    free cache ;;
    put_array obj (with_buffer_info NULL self)
  else ret tt.

End Buffer.

(** ** Reading results back *)

(** The characters before the first NUL, when there is one. *)
Fixpoint until_NUL (cs : list ascii) : option (list ascii) :=
  match cs with
  | [] => None
  | c :: cs' =>
      if Ascii.eqb c NUL then Some []
      else match until_NUL cs' with
           | Some r => Some (c :: r)
           | None => None
           end
  end.

(** The C string that a [char *] points to. *)
Definition c_string (st : state) (p : pointer) : option string :=
  match p with
  | Some (b, o) =>
      match mem st !! b with
      | Some (Chars cs) =>
          if 0 <=? o then
            string_of_list_ascii <$> until_NUL (drop (Z.to_nat o) cs)
          else None
      | _ => None
      end
  | None => None
  end.

(** What a [_tmp_string] holds so far: the first [pos] characters. *)
Definition tmp_contents (st : state) (s : _tmp_string) : option (list ascii) :=
  match tmp_s s with
  | None => Some []
  | Some (b, _) =>
      match mem st !! b with
      | Some (Chars cs) => Some (take (Z.to_nat (tmp_pos s)) cs)
      | _ => None
      end
  end.

(** The [n] values of [Py_ssize_t] that a pointer leads to. *)
Definition words_at (st : state) (p : pointer) (n : Z) : option (list Z) :=
  match p with
  | Some (b, o) =>
      match mem st !! b with
      | Some (Words ws) =>
          if (0 <=? o) && (o + n <=? Z.of_nat (length ws)) then
            Some (take (Z.to_nat n) (drop (Z.to_nat o) ws))
          else None
      | _ => None
      end
  | None => None
  end.

(** Whether the block behind a pointer has been given back to [free]. *)
Definition is_freed (st : state) (p : pointer) : bool :=
  match p with
  | Some (b, _) =>
      match mem st !! b with
      | Some Freed => true
      | _ => false
      end
  | None => false
  end.

(** ** The headers as Python 2.6 and NumPy declare them

    The request masks are those of Python's [object.h], where
    [PyBUF_STRIDES] is [0x0010 | PyBUF_ND] with [PyBUF_ND = 0x0008]; the array
    flags and macros are those of NumPy's [ndarrayobject.h]. *)

Definition chkflags (m : PyArrayObject) (mask : Z) : bool :=
  has_flags (flags m) mask.

(** [PyArray_MultiplyList(dimensions, nd)] *)
Definition multiply_list (l : list Z) (n : Z) : Z :=
  foldr Z.mul 1 (take (Z.to_nat n) l).

Definition std_headers (ndebug : bool) : Headers := {|
  PyBUF_WRITABLE := 0x0001;
  PyBUF_FORMAT := 0x0004;
  PyBUF_STRIDED := 0x0019;           (* PyBUF_STRIDES | PyBUF_WRITABLE *)
  PyBUF_C_CONTIGUOUS := 0x0038;      (* 0x0020 | PyBUF_STRIDES *)
  PyBUF_F_CONTIGUOUS := 0x0058;      (* 0x0040 | PyBUF_STRIDES *)
  PyBUF_ANY_CONTIGUOUS := 0x0098;    (* 0x0080 | PyBUF_STRIDES *)
  NPY_C_CONTIGUOUS := 0x0001;
  NPY_F_CONTIGUOUS := 0x0002;
  WRITEABLE := 0x0400;
  PyArray_CHKFLAGS := chkflags;
  PyArray_ISONESEGMENT := fun m =>
    (nd m =? 0) || chkflags m 0x0001 || chkflags m 0x0002;
  PyArray_ISWRITEABLE := fun m => chkflags m 0x0400;
  PyArray_SIZE := fun m => multiply_list (dimensions m) (nd m);
  NDEBUG := ndebug |}.

(** ** What the translator writes

    The characters that a run of the translator adds to its [_tmp_string]
    when no allocation fails, with the value it returns and the offset it
    leaves, as a function of the descriptor alone.  [translator_writes]
    below relates it to the code. *)

Definition byteorder_chars (d : PyArray_Descr) : list ascii :=
  if has_byteorder_char d then [byteorder d] else [].

(** The characters of [switch (descr->type_num)]; [None] in its
    [default] case. *)
Definition scalar_chars (d : PyArray_Descr) : option string :=
  match type_num d with
  | NPY_BYTE => Some "b" | NPY_UBYTE => Some "B"
  | NPY_SHORT => Some "h" | NPY_USHORT => Some "H"
  | NPY_INT => Some "i" | NPY_UINT => Some "I"
  | NPY_LONG => Some "l" | NPY_ULONG => Some "L"
  | NPY_LONGLONG => Some "q" | NPY_ULONGLONG => Some "Q"
  | NPY_FLOAT => Some "f" | NPY_DOUBLE => Some "d"
  | NPY_LONGDOUBLE => Some "g"
  | NPY_CFLOAT => Some "Zf" | NPY_CDOUBLE => Some "Zd"
  | NPY_CLONGDOUBLE => Some "Zg"
  | NPY_STRING => Some (fmt_d (elsize d) ++ "s")
  | NPY_UNICODE => Some (fmt_d (Z.quot (elsize d) 4) ++ "w")
  | NPY_OBJECT => Some "O"
  | NPY_OTHER _ => None
  end%string.

(** The characters of a field name up to its first [':'], and whether there
    is none. *)
Fixpoint name_chars (p : list ascii) : bool * list ascii :=
  match p with
  | [] => (true, [])
  | c :: p' =>
      if Ascii.eqb c ":" then (false, [])
      else let '(ok, r) := name_chars p' in (ok, c :: r)
  end.

Definition fields_chars (child_chars : PyArray_Descr -> Z -> Z * list ascii * Z)
  : list (string * PyArray_Descr * Z) -> Z -> Z * list ascii * Z :=
  fix loop fs offset :=
    match fs with
    | [] => (0, ["}"%char], offset)
    | (name, child, new_offset) :: fs' =>
        let n := Z.to_nat (new_offset - offset) in
        let offset := offset + Z.of_nat n + elsize child in
        let '(_, cs, offset) := child_chars child offset in
        let '(ok, ns) := name_chars (list_ascii_of_string name) in
        let head := replicate n "x"%char ++ cs ++ ":"%char :: ns in
        if ok then
          let '(r, rest, offset) := loop fs' offset in
          (r, head ++ ":"%char :: rest, offset)
        else (-1, head, offset)
    end.

Fixpoint format_chars (d : PyArray_Descr) (offset : Z) {struct d}
  : Z * list ascii * Z :=
  if subarray d then (-1, [], offset)
  else
    match fields d with
    | Some fs =>
        let '(r, cs, offset) := fields_chars format_chars fs offset in
        (r, "T"%char :: "{"%char :: cs, offset)
    | None =>
        match scalar_chars d with
        | Some code =>
            (0, byteorder_chars d ++ list_ascii_of_string code, offset)
        | None => (-1, byteorder_chars d, offset)
        end
    end.

(** Whether every [assert] of a run over [d] holds: each wide-string scalar
    in [d] has a size that is a multiple of 4. *)
Fixpoint asserts_hold (d : PyArray_Descr) : bool :=
  match fields d with
  | Some fs => forallb (fun f => asserts_hold f.1.2) fs
  | None =>
      match type_num d with
      | NPY_UNICODE => Z.rem (elsize d) 4 =? 0
      | _ => true
      end
  end.

(** ** Invariants used in the proofs *)

(** The [_tmp_string] is empty, or its buffer is a live block of
    [allocated] characters of which the first [pos] are [cs]. *)
Definition tmp_inv (st : state) (s : _tmp_string) (cs : list ascii) : Prop :=
  match tmp_s s with
  | None => cs = []
  | Some (b, o) =>
      o = 0 /\
      exists buf, mem st !! b = Some (Chars buf)
        /\ Z.of_nat (length buf) = tmp_allocated s
        /\ 0 < tmp_allocated s
        /\ 0 <= tmp_pos s <= tmp_allocated s
        /\ take (Z.to_nat (tmp_pos s)) buf = cs
  end.

(** The pointer is NULL or leads to a block numbered [n0] or above. *)
Definition owned (n0 : nat) (p : pointer) : Prop :=
  match p with None => True | Some (b, _) => (n0 <= b)%nat end.

(** From [st0] to [st] the objects are unchanged, and so is every block
    below [n0]. *)
Record frame (n0 : nat) (st0 st : state) : Prop := mk_frame {
  frame_arrays : arrays st = arrays st0;
  frame_descrs : descrs st = descrs st0;
  frame_len : (n0 <= length (mem st))%nat;
  frame_mem : forall b, (b < n0)%nat -> mem st !! b = mem st0 !! b }.

(** The byte-order character in front of a scalar's code. *)
Definition byteorder_marker (d : PyArray_Descr) : string :=
  if has_byteorder_char d then String (byteorder d) "" else "".


(** What [assert] asks of a scalar descriptor. *)
Definition scalar_asserts (d : PyArray_Descr) : bool :=
  match type_num d with
  | NPY_UNICODE => Z.rem (elsize d) 4 =? 0
  | _ => true
  end.

(** Every block of [m] is still there, unchanged, in [m']. *)
Definition mem_extends (m m' : list block) : Prop :=
  forall b x, m !! b = Some x -> m' !! b = Some x.

(** The snapshot behind [c] agrees with the array at index [k]. *)
Definition matches_at (m : list block) (c : _buffer_data)
    (self : PyArrayObject) (k : Z) : Prop :=
  exists d t,
    read_word m (cache_shape c) k = Some d
    /\ elem (dimensions self) k = Some d
    /\ read_word m (cache_strides c) k = Some t
    /\ elem (strides self) k = Some t.



(** The objects and the error indicator are the same in both states. *)
Definition same_objects (st st' : state) : Prop :=
  arrays st' = arrays st /\ descrs st' = descrs st /\ pyerr st' = pyerr st.

(** The last step of a successful export: the reference taken on the
    array. *)
Definition took_reference (obj : nat) (st st' : state) : Prop :=
  exists a, arrays st !! obj = Some a
            /\ st' = set_arrays (<[obj := Py_INCREF a]> (arrays st)) st.

Section ProofNotions.
Context `{Headers}.

(** What holds after a call of the translator or of one of its parts that
    started in [st] with string [s] and ended in [st'] with [s'] and
    result [r]: the frame, and a pending error when [r] is not 0. *)
Definition kept (n0 : nat) (st0 : state) (r : Z) (s' : _tmp_string)
    (st' : state) : Prop :=
  frame n0 st0 st' /\ owned n0 (tmp_s s') /\ (r <> 0 -> is_Some (pyerr st')).

(** The statement of [_buffer_format_string_frame] for one descriptor. *)
Definition child_frame (n0 : nat) (st0 : state) (d : PyArray_Descr) : Prop :=
  forall s off r s' off' st st',
    frame n0 st0 st -> owned n0 (tmp_s s) ->
    _buffer_format_string d s off st = Done (r, s', off') st' ->
    kept n0 st0 r s' st'.

(** The statement of [translator_writes] for one descriptor. *)
Definition child_ok (d : PyArray_Descr) : Prop :=
  forall st s cs off r out off',
    oracle st = [] -> tmp_inv st s cs ->
    NDEBUG = true \/ asserts_hold d = true ->
    format_chars d off = (r, out, off') ->
    exists s' st',
      _buffer_format_string d s off st = Done (r, s', off') st'
      /\ oracle st' = []
      /\ tmp_inv st' s' (cs ++ out).

(** What the translator makes of a descriptor, started on an empty
    [_tmp_string] at offset 0: the string, when the call returns 0. *)
Definition encoded (d : PyArray_Descr) (st : state) : option string :=
  match _buffer_format_string d (mk_tmp NULL 0 0) 0 st with
  | Done (0, s, _) st' => string_of_list_ascii <$> tmp_contents st' s
  | _ => None
  end.

End ProofNotions.

(** ** Example inputs *)

Definition final_state {A} (o : outcome A) : state :=
  match o with Done _ st | Fault st | Abort st => st end.

(** The view that a run leaves, when it leaves one. *)
Definition view_of (o : outcome (Z * option Py_buffer)) : Py_buffer :=
  match o with
  | Done (_, Some v) _ => v
  | _ => mk_view 0 None 0 0 false 0 NULL NULL NULL NULL NULL
  end.

Definition scalar_descr (t : NPY_TYPES) (bo : ascii) (sz : Z) : PyArray_Descr :=
  mk_descr t bo sz false None NULL.

Definition empty_view : Py_buffer :=
  mk_view 0 None 0 0 false 0 NULL NULL NULL NULL NULL.

Definition empty_state : state := mk_state [] [] [] [] None.

(** The array changing its layout in place between two exports (the setters
    of [shape] and [strides], outside this file), as far as the exporter sees
    it. *)
Definition with_layout (obj : nat) (n : Z) (dims strs : list Z) (st : state)
  : state :=
  match arrays st !! obj with
  | Some a =>
      set_arrays
        (<[obj := mk_array (ob_refcnt a) (data a) n dims strs (descr a)
                    (flags a) (buffer_info a)]> (arrays st)) st
  | None => st
  end.

(** One array of three doubles, C contiguous and not writeable, exported
    never before. *)
Definition readonly_state : state :=
  mk_state [] [] [mk_array 1 4096 1 [3] [8] 0 0x0001 NULL]
    [scalar_descr NPY_DOUBLE "=" 8] None.

(** [dtype([('a', 'i4', (2,))])]: a record whose only field is a sub-array. *)
Definition subarray_field : PyArray_Descr :=
  mk_descr (NPY_OTHER 20) "|" 8 false
    (Some [("a"%string, mk_descr NPY_INT "=" 8 true None NULL, 0)]) NULL.

Definition subarray_state : state :=
  mk_state [] [] [mk_array 1 4096 1 [3] [8] 0 0x0501 NULL]
    [subarray_field] None.

(** [dtype({'names': ['a', 'b'], 'formats': ['u1', 'f8'], 'offsets': [0, 8]})]
    on a machine whose doubles are native: byte order ['='] on the double,
    ['|'] on the byte. *)
Definition record_a_b : PyArray_Descr :=
  mk_descr (NPY_OTHER 20) "|" 16 false
    (Some [("a"%string, scalar_descr NPY_UBYTE "|" 1, 0);
           ("b"%string, scalar_descr NPY_DOUBLE "=" 8, 8)]) NULL.

(** One writeable array of two doubles, and the state after its first
    export with shape and strides. *)
Definition doubles_state : state :=
  mk_state [] [] [mk_array 1 4096 1 [2] [8] 0 0x0501 NULL]
    [scalar_descr NPY_DOUBLE "=" 8] None.

Definition doubles_exported : state :=
  Eval vm_compute in
    final_state
      (array_getbuffer (H := std_headers true) 0 (Some empty_view) 0x19
         doubles_state).

(** Two exports of that array asking for the format only. *)
Definition format_run1 : outcome (Z * option Py_buffer) :=
  array_getbuffer (H := std_headers true) 0 (Some empty_view) 0x04
    doubles_state.

Definition format_run2 : outcome (Z * option Py_buffer) :=
  array_getbuffer (H := std_headers true) 0 (Some empty_view) 0x04
    (final_state format_run1).

(** Three exports of that array with shape and strides: the first, a second
    one right after it, and one after the first when the extent has become
    3. *)
Definition strided_run1 : outcome (Z * option Py_buffer) :=
  array_getbuffer (H := std_headers true) 0 (Some empty_view) 0x19
    doubles_state.



(** A two-dimensional slice of doubles that is neither C nor Fortran
    contiguous. *)
Definition sliced_state : state :=
  mk_state [] [] [mk_array 1 4096 2 [2; 2] [32; 8] 0 0x0400 NULL]
    [scalar_descr NPY_DOUBLE "=" 8] None.

(** ** Records of scalars

    The layout that the fields of a record describe by themselves, for
    comparison with what the translator's cursor makes of them. *)

(** No [':'] in the name. *)
Definition colon_free (name : string) : bool :=
  forallb (fun c => negb (Ascii.eqb c ":")) (list_ascii_of_string name).

(** A descriptor without fields or sub-array whose type the [switch] of the
    translator lists. *)
Definition plain_scalar (d : PyArray_Descr) : bool :=
  negb (subarray d) && negb (PyDataType_HASFIELDS d)
  && match scalar_chars d with Some _ => true | None => false end.

(** The byte-order character and type code of a scalar. *)
Definition scalar_code (d : PyArray_Descr) : list ascii :=
  byteorder_chars d
  ++ match scalar_chars d with
     | Some code => list_ascii_of_string code
     | None => []
     end.

(** The fields are scalars with names free of [':'], each starting at or
    after the end of the one before it; [prev_end] is where the previous
    field ended. *)
Fixpoint laid_out (fs : list (string * PyArray_Descr * Z)) (prev_end : Z)
  : bool :=
  match fs with
  | [] => true
  | (name, child, start) :: fs' =>
      (prev_end <=? start) && plain_scalar child && colon_free name
      && laid_out fs' (start + elsize child)
  end.

(** For each field: one [x] per byte of the gap between the end of the
    previous field and its own start, its code, and its name between
    colons. *)
Fixpoint layout_chars (fs : list (string * PyArray_Descr * Z)) (prev_end : Z)
  : list ascii :=
  match fs with
  | [] => []
  | (name, child, start) :: fs' =>
      replicate (Z.to_nat (start - prev_end)) "x"%char
      ++ scalar_code child
      ++ ":"%char :: list_ascii_of_string name
      ++ ":"%char :: layout_chars fs' (start + elsize child)
  end.

(** Where the last field ends. *)
Fixpoint layout_end (fs : list (string * PyArray_Descr * Z)) (prev_end : Z)
  : Z :=
  match fs with
  | [] => prev_end
  | (_, child, start) :: fs' => layout_end fs' (start + elsize child)
  end.

Section Demands.
Context `{Headers}.

(** The three contiguity tests at the start of [array_getbuffer], in their
    order: the message of the first one that the array fails. *)
Definition contiguity_error (flags : Z) (self : PyArrayObject)
  : option string :=
  if has_flags flags PyBUF_C_CONTIGUOUS
     && negb (PyArray_CHKFLAGS self NPY_C_CONTIGUOUS) then
    Some "ndarray is not C contiguous"%string
  else if has_flags flags PyBUF_F_CONTIGUOUS
          && negb (PyArray_CHKFLAGS self NPY_F_CONTIGUOUS) then
    Some "ndarray is not Fortran contiguous"%string
  else if has_flags flags PyBUF_ANY_CONTIGUOUS
          && negb (PyArray_ISONESEGMENT self) then
    Some "ndarray is not contiguous"%string
  else None.

End Demands.

Section AppendOnly.
Context `{Headers}.



End AppendOnly.

(** ** The cache as the exporter keeps it *)

(** Behind [cb] there is a cache struct that holds either no snapshot (and
    then counts no dimensions) or a live block of twice [nd] values, the
    extents at its start and the strides [nd] values further. *)
Definition cache_ok (m : list block) (cb : nat) : Prop :=
  exists c,
    m !! cb = Some (Cache (Some c)) /\ 0 <= cache_nd c
    /\ ((cache_shape c = NULL /\ cache_strides c = NULL /\ cache_nd c = 0)
        \/ exists b ws,
             cache_shape c = Some (b, 0)
             /\ cache_strides c = Some (b, cache_nd c)
             /\ m !! b = Some (Words ws)
             /\ Z.of_nat (length ws) = 2 * cache_nd c).

(** The array has no cache yet, or one that is well formed. *)
Definition cache_well_formed (st : state) (a : PyArrayObject) : Prop :=
  buffer_info a = NULL
  \/ exists cb, buffer_info a = Some (cb, 0) /\ cache_ok (mem st) cb.

(** The array has at least [nd] extents and strides. *)
Definition array_well_formed (a : PyArrayObject) : Prop :=
  0 <= nd a
  /\ nd a <= Z.of_nat (length (dimensions a))
  /\ nd a <= Z.of_nat (length (strides a)).

(** ** More example inputs *)

(** A string whose buffer of 16 bytes is full, or has room for one more
    character, in a state whose allocator refuses the next request. *)
Definition full_string_state : state :=
  mk_state [Chars (list_ascii_of_string "0123456789abcdef")] [false] [] []
    None.

Definition full_string : _tmp_string := mk_tmp (Some (0%nat, 0)) 16 16.




(** [dtype('?')]: type number 0, which the translator's [switch] does not
    list; the translator on it, and an array of three such elements. *)
Definition bool_descr : PyArray_Descr := scalar_descr (NPY_OTHER 0) "|" 1.


Definition bool_state : state :=
  mk_state [] [] [mk_array 1 4096 1 [3] [1] 0 0x0501 NULL] [bool_descr] None.

(** A record whose only field has a [':'] in its name. *)
Definition colon_record : PyArray_Descr :=
  mk_descr (NPY_OTHER 20) "|" 4 false
    (Some [("a:b"%string, scalar_descr NPY_INT "=" 4, 0)]) NULL.


(** * Proofs *)

#[local] Arguments store_char : simpl never.
#[local] Arguments realloc : simpl never.
#[local] Arguments malloc : simpl never.
#[local] Arguments load_cache : simpl never.
#[local] Arguments store_cache : simpl never.

(** ** Runs that end normally *)

Lemma bind_Done {A B} (m : M A) (k : A -> M B) st b st' :
  bind m k st = Done b st' ->
  exists a st1, m st = Done a st1 /\ k a st1 = Done b st'.
Proof.
  unfold bind. destruct (m st) as [a st1| |]; intros E; try discriminate.
  eauto.
Qed.

Lemma bind_step {A B} (m : M A) (k : A -> M B) st a st1 :
  m st = Done a st1 -> bind m k st = k a st1.
Proof. unfold bind. intros ->. reflexivity. Qed.

Lemma load_word_Done p k v st st' :
  load_word p k st = Done v st' -> st' = st /\ read_word (mem st) p k = Some v.
Proof.
  unfold load_word. destruct (read_word _ _ _); intros E; inversion E; auto.
Qed.

Lemma array_elem_Done a k v st st' :
  array_elem a k st = Done v st' -> st' = st /\ elem a k = Some v.
Proof.
  unfold array_elem. destruct (elem _ _); intros E; inversion E; auto.
Qed.

(** Inversion of a run that ended normally, down to the calls it made. *)
Ltac minv1 :=
  match goal with
  | H : bind _ _ _ = Done _ _ |- _ =>
      apply bind_Done in H as (? & ? & ? & H)
  | H : ret _ _ = Done _ _ |- _ => inversion H; subst; clear H
  | H : Done _ _ = Done _ _ |- _ => inversion H; subst; clear H
  | H : Fault _ = Done _ _ |- _ => discriminate H
  | H : Abort _ = Done _ _ |- _ => discriminate H
  | H : (let '(_, _) := ?x in _) _ = Done _ _ |- _ => destruct x
  | H : (if ?b then _ else _) _ = Done _ _ |- _ => destruct b eqn:?
  | H : (match ?x with Some _ => _ | None => _ end) _ = Done _ _ |- _ =>
      destruct x eqn:?
  | H : load_word _ _ _ = Done _ _ |- _ =>
      apply load_word_Done in H as [-> H]
  | H : array_elem _ _ _ = Done _ _ |- _ =>
      apply array_elem_Done in H as [-> H]
  end.
Ltac minv := repeat minv1.

(** ** The translator touches only its own storage *)

Lemma frame_refl n0 st : (n0 <= length (mem st))%nat -> frame n0 st st.
Proof. split; auto. Qed.

Lemma frame_insert n0 st0 st b x :
  frame n0 st0 st -> (n0 <= b)%nat ->
  frame n0 st0 (set_mem (<[b := x]> (mem st)) st).
Proof.
  intros [Ha Hd Hl Hm] Hb. split; simpl; auto.
  - rewrite length_insert. lia.
  - intros b' Hb'. rewrite list_lookup_insert_ne by lia. auto.
Qed.

Lemma frame_alloc n0 st0 st x o :
  frame n0 st0 st ->
  frame n0 st0 (set_oracle o (set_mem (mem st ++ [x]) st)).
Proof.
  intros [Ha Hd Hl Hm]. split; simpl; auto.
  - rewrite length_app. lia.
  - intros b' Hb'. rewrite lookup_app_l by lia. auto.
Qed.

Lemma frame_set_oracle n0 st0 st o :
  frame n0 st0 st -> frame n0 st0 (set_oracle o st).
Proof. intros [Ha Hd Hl Hm]. split; simpl; auto. Qed.

Lemma frame_set_pyerr n0 st0 st e :
  frame n0 st0 st -> frame n0 st0 (set_pyerr e st).
Proof. intros [Ha Hd Hl Hm]. split; simpl; auto. Qed.

Lemma malloc_frame n0 st0 init p st st' :
  frame n0 st0 st ->
  malloc init st = Done p st' -> frame n0 st0 st' /\ owned n0 p.
Proof.
  intros F. unfold malloc.
  destruct (oracle st) as [|[] o]; intros E; inversion E; subst; clear E;
    split; simpl; auto using frame_alloc, frame_set_oracle;
    apply F.
Qed.

Lemma realloc_frame n0 st0 p n q st st' :
  frame n0 st0 st -> owned n0 p ->
  realloc p n st = Done q st' -> frame n0 st0 st' /\ owned n0 q.
Proof.
  intros F Hp. unfold realloc.
  destruct p as [[b o]|]; [|apply malloc_frame; auto].
  simpl in Hp.
  destruct (mem st !! b) as [[cs| | |]|]; try discriminate.
  destruct (o =? 0); try discriminate.
  assert (forall o' x, frame n0 st0
            (set_oracle o' (set_mem (<[b:=Freed]> (mem st) ++ [x]) st))) as Hmove.
  { intros o' x.
    apply (frame_alloc n0 st0 (set_mem (<[b:=Freed]> (mem st)) st)).
    apply frame_insert; auto. }
  destruct (oracle st) as [|[] orc]; intros E; inversion E; subst; clear E;
    split; simpl; auto using frame_set_oracle.
  all: apply F.
Qed.

Lemma store_char_frame n0 st0 p k c st st' :
  frame n0 st0 st -> owned n0 p ->
  store_char p k c st = Done tt st' -> frame n0 st0 st'.
Proof.
  intros F. unfold store_char. destruct p as [[b o]|]; try discriminate.
  simpl. intros Hb.
  destruct (mem st !! b) as [[cs| | |]|]; try discriminate.
  destruct (_ && _); try discriminate.
  intros E; inversion E; subst. apply frame_insert; auto.
Qed.

Lemma PyErr_SetString_frame n0 st0 e msg st st' :
  frame n0 st0 st ->
  PyErr_SetString e msg st = Done tt st' ->
  frame n0 st0 st' /\ pyerr st' = Some (e, msg).
Proof. intros F E; inversion E; subst. auto using frame_set_pyerr. Qed.

Lemma store_char_pyerr p k c u st st' :
  store_char p k c st = Done u st' -> pyerr st' = pyerr st.
Proof.
  unfold store_char. destruct p as [[b o]|]; try discriminate.
  destruct (mem st !! b) as [[cs| | |]|]; try discriminate.
  destruct (_ && _); try discriminate.
  intros E; inversion E; subst. reflexivity.
Qed.

Ltac frame_prim :=
  match goal with
  | F : frame ?n ?s0 ?st, E : malloc _ ?st = Done _ _ |- _ =>
      apply (malloc_frame _ _ _ _ _ _ F) in E as [? ?]
  | F : frame ?n ?s0 ?st, E : realloc _ _ ?st = Done _ _ |- _ =>
      apply (realloc_frame _ _ _ _ _ _ _ F) in E as [? ?]; [|assumption]
  | F : frame ?n ?s0 ?st, E : store_char _ _ _ ?st = Done ?u _ |- _ =>
      destruct u; apply (store_char_frame _ _ _ _ _ _ _ F) in E; [|assumption]
  | F : frame ?n ?s0 ?st, E : PyErr_SetString _ _ ?st = Done ?u _ |- _ =>
      destruct u; apply (PyErr_SetString_frame _ _ _ _ _ _ F) in E as [? ?]
  end.

Section DescrInd.
Variable P : PyArray_Descr -> Prop.
Hypothesis Hscalar : forall d, fields d = None -> P d.
Hypothesis Hrecord : forall d fs,
  fields d = Some fs -> Forall (fun f => P f.1.2) fs -> P d.

(** Induction on descriptors through the list of fields. *)
Lemma PyArray_Descr_nested_ind : forall d, P d.
Proof.
  fix IH 1. intros [t bo sz sub [fs|] bf].
  - apply Hrecord with fs; [reflexivity|].
    induction fs as [|[[name child] off] fs IHfs]; constructor; auto.
  - apply Hscalar. reflexivity.
Qed.
End DescrInd.

Section Translator.
Context `{Headers}.

Lemma _append_char_frame n0 st0 s c r s' st st' :
  frame n0 st0 st -> owned n0 (tmp_s s) ->
  _append_char s c st = Done (r, s') st' ->
  kept n0 st0 r s' st'.
Proof.
  intros F Hs E. unfold _append_char in E. unfold kept.
  minv; repeat frame_prim; simpl in *; auto; split_and!; eauto; congruence.
Qed.

Ltac fstep1 :=
  match goal with
  | F : frame ?n ?s0 ?st, E : _append_char _ _ ?st = Done (_, _) _ |- _ =>
      apply (_append_char_frame _ _ _ _ _ _ _ _ F) in E as (? & ? & ?);
      [|assumption]
  end.

Lemma _append_str_frame n0 st0 c : forall s r s' st st',
  frame n0 st0 st -> owned n0 (tmp_s s) ->
  _append_str s c st = Done (r, s') st' ->
  kept n0 st0 r s' st'.
Proof.
  induction c as [|ch c IH]; simpl; intros s r s' st st' F Hs E.
  - minv. split_and!; auto. congruence.
  - minv; fstep1; eauto.
    split_and!; auto. intros _.
    match goal with
    | Hz : negb (?z =? 0) = true, Hp : ?z <> 0 -> _ |- _ =>
        apply Hp; intros ->; discriminate Hz
    end.
Qed.

Lemma pad_loop_frame n0 st0 n : forall s off s' off' st st',
  frame n0 st0 st -> owned n0 (tmp_s s) ->
  pad_loop n s off st = Done (s', off') st' ->
  frame n0 st0 st' /\ owned n0 (tmp_s s').
Proof.
  induction n as [|n IH]; simpl; intros s off s' off' st st' F Hs E.
  - minv. auto.
  - minv; fstep1; eauto.
Qed.

Lemma name_loop_frame n0 st0 p : forall s ok s' st st',
  frame n0 st0 st -> owned n0 (tmp_s s) ->
  name_loop p s st = Done (ok, s') st' ->
  frame n0 st0 st' /\ owned n0 (tmp_s s')
  /\ (ok = false -> is_Some (pyerr st')).
Proof.
  induction p as [|ch p IH]; simpl; intros s ok s' st st' F Hs E.
  - minv. split_and!; auto. discriminate.
  - minv; repeat frame_prim; try fstep1; eauto.
Qed.

Lemma assert_Done b u st st' : assert b st = Done u st' -> st' = st.
Proof. unfold assert. destruct (_ || _); intros E; inversion E; auto. Qed.

Ltac fstep2 :=
  match goal with
  | F : frame ?n ?s0 ?st, E : _append_str _ _ ?st = Done (_, _) _ |- _ =>
      apply (_append_str_frame _ _ _ _ _ _ _ _ F) in E as (? & ? & ?);
      [|assumption]
  | F : frame ?n ?s0 ?st, E : pad_loop _ _ _ ?st = Done (_, _) _ |- _ =>
      apply (pad_loop_frame _ _ _ _ _ _ _ _ _ F) in E as [? ?]; [|assumption]
  | F : frame ?n ?s0 ?st, E : name_loop _ _ ?st = Done (_, _) _ |- _ =>
      apply (name_loop_frame _ _ _ _ _ _ _ _ F) in E as (? & ? & ?);
      [|assumption]
  | E : assert _ _ = Done _ _ |- _ => apply assert_Done in E; subst
  end.

Ltac fsteps := repeat (first [fstep1 | fstep2 | frame_prim]).

Ltac kept_solve :=
  unfold kept; split_and!; eauto;
  try (intros Hne; try congruence;
       match goal with
       | Hp : ?z <> 0 -> is_Some _ |- _ =>
           apply Hp; intros ->; simpl in Hne; congruence
       end).

Lemma format_scalar_frame n0 st0 d s off r s' off' st st' :
  frame n0 st0 st -> owned n0 (tmp_s s) ->
  format_scalar d s off st = Done (r, s', off') st' ->
  kept n0 st0 r s' st'.
Proof.
  intros F Hs E. unfold format_scalar, emit in E.
  destruct (type_num d); minv; fsteps; kept_solve.
Qed.

Lemma fields_loop_frame n0 st0 fs :
  Forall (fun f => child_frame n0 st0 f.1.2) fs ->
  forall s off r s' off' st st',
    frame n0 st0 st -> owned n0 (tmp_s s) ->
    fields_loop _buffer_format_string fs s off st = Done (r, s', off') st' ->
    kept n0 st0 r s' st'.
Proof.
  induction 1 as [|[[name child] new_offset] fs Hc _ IH]; simpl;
    intros s off r s' off' st st' F Hs E.
  - minv; fsteps; kept_solve.
  - minv; fsteps;
      match goal with
      | E : _buffer_format_string _ _ _ _ = Done _ _ |- _ =>
          eapply Hc in E as (? & ? & ?); [|eassumption|assumption]
      end; fsteps; eauto; kept_solve.
Qed.

Lemma _buffer_format_string_frame n0 st0 d : child_frame n0 st0 d.
Proof.
  induction d as [d Hf|d fs Hf IH] using PyArray_Descr_nested_ind;
    intros s off r s' off' st st' F Hs E;
    destruct d as [t bo sz sub f bf]; simpl in Hf; subst f;
    simpl in E; destruct sub.
  - minv; fsteps; kept_solve.
  - minv; fsteps; eapply format_scalar_frame; eauto.
  - minv; fsteps; kept_solve.
  - minv; fsteps; eapply fields_loop_frame; eauto.
Qed.

End Translator.

(** ** The translator against its functional model *)

Lemma take_succ_insert {A} (l : list A) (n : nat) (x : A) :
  (n < length l)%nat -> take (S n) (<[n := x]> l) = take n l ++ [x].
Proof.
  intros Hn. rewrite (take_S_r _ _ x) by (apply list_lookup_insert_eq; auto).
  rewrite take_insert_ge by lia. reflexivity.
Qed.

Lemma malloc_ok init st :
  oracle st = [] ->
  malloc init st = Done (Some (length (mem st), 0)) (set_mem (mem st ++ [init]) st).
Proof.
  unfold malloc. intros Ho. rewrite Ho. unfold set_oracle, set_mem. simpl.
  rewrite Ho. reflexivity.
Qed.

Lemma realloc_ok b buf n st :
  oracle st = [] -> mem st !! b = Some (Chars buf) ->
  realloc (Some (b, 0)) n st =
  Done (Some (length (mem st), 0))
    (set_mem (<[b := Freed]> (mem st)
              ++ [Chars (take (Z.to_nat n) buf
                         ++ replicate (Z.to_nat n - length buf) NUL)]) st).
Proof.
  unfold realloc. intros Ho Hb. rewrite Hb, Ho. unfold set_oracle, set_mem. simpl.
  rewrite Ho. reflexivity.
Qed.

Lemma store_char_ok b buf k c st :
  mem st !! b = Some (Chars buf) -> 0 <= k < Z.of_nat (length buf) ->
  store_char (Some (b, 0)) k c st =
  Done tt (set_mem (<[b := Chars (<[Z.to_nat k := c]> buf)]> (mem st)) st).
Proof.
  unfold store_char. intros Hb Hk. rewrite Hb. rewrite Z.add_0_l.
  destruct (0 <=? k) eqn:E1; [|apply Z.leb_gt in E1; lia].
  destruct (k <? Z.of_nat (length buf)) eqn:E2; [|apply Z.ltb_ge in E2; lia].
  reflexivity.
Qed.

Section TranslatorWrites.
Context `{Headers}.

Lemma _append_char_ok st s cs c :
  oracle st = [] -> tmp_inv st s cs ->
  exists s' st', _append_char s c st = Done (0, s') st'
    /\ oracle st' = [] /\ tmp_inv st' s' (cs ++ [c]).
Proof.
  intros Ho Hinv. unfold _append_char, tmp_inv in *.
  destruct (tmp_s s) as [[b o]|] eqn:Es; simpl.
  - destruct Hinv as (-> & buf & Hb & Hlen & Hpos & Hrange & Htake).
    pose proof (lookup_lt_Some _ _ _ Hb) as Hblt.
    unfold bind at 1. unfold ret at 1.
    destruct (tmp_allocated s <=? tmp_pos s) eqn:Hfull.
    + apply Z.leb_le in Hfull.
      set (buf' := take (Z.to_nat (2 * tmp_allocated s)) buf
                   ++ replicate (Z.to_nat (2 * tmp_allocated s) - length buf) NUL).
      assert (length buf' = Z.to_nat (2 * tmp_allocated s)) as Hl'.
      { unfold buf'. rewrite length_app, length_take, length_replicate. lia. }
      assert (take (Z.to_nat (tmp_pos s)) buf' = cs) as Ht'.
      { unfold buf'. rewrite take_app_le by (rewrite length_take; lia).
        rewrite take_take. rewrite Nat.min_l by lia. exact Htake. }
      unfold bind. rewrite Es. rewrite (realloc_ok b buf) by assumption.
      simpl. fold buf'.
      erewrite (store_char_ok (length (mem st)) buf').
      2:{ simpl. rewrite <- (length_insert (mem st) b Freed).
          apply list_lookup_middle. reflexivity. }
      2:{ lia. }
      eexists _, _. split; [reflexivity|]. simpl. split; [exact Ho|].
      split; [reflexivity|].
      eexists. split.
      { apply list_lookup_insert_eq. rewrite length_app, length_insert. simpl. lia. }
      rewrite length_insert.
      split; [lia|]. split; [lia|]. split; [lia|].
      replace (Z.to_nat (tmp_pos s + 1)) with (S (Z.to_nat (tmp_pos s))) by lia.
      rewrite take_succ_insert by lia. rewrite Ht'. reflexivity.
    + apply Z.leb_gt in Hfull.
      unfold bind, ret. rewrite Es.
      erewrite (store_char_ok b buf) by (auto; lia).
      eexists _, _. split; [reflexivity|]. simpl. split; [exact Ho|].
      split; [reflexivity|].
      eexists. split.
      { apply list_lookup_insert_eq. exact Hblt. }
      rewrite length_insert.
      split; [lia|]. split; [lia|]. split; [lia|].
      replace (Z.to_nat (tmp_pos s + 1)) with (S (Z.to_nat (tmp_pos s))) by lia.
      rewrite take_succ_insert by lia. rewrite Htake. reflexivity.
  - subst cs. unfold bind. rewrite malloc_ok by assumption. unfold ret. simpl.
    erewrite (store_char_ok (length (mem st)) (replicate 16 NUL)).
    2:{ simpl. apply list_lookup_middle. reflexivity. }
    2:{ simpl. lia. }
    eexists _, _. split; [reflexivity|]. simpl. split; [exact Ho|].
    split; [reflexivity|].
    eexists. split.
    { apply list_lookup_insert_eq. rewrite length_app. simpl. lia. }
    simpl. split_and!; try lia. reflexivity.
Qed.

Ltac ok_char :=
  match goal with
  | Ho : oracle ?st = [], Hi : tmp_inv ?st ?s ?cs
    |- context [bind (_append_char ?s ?c) _ ?st] =>
      let E := fresh "E" in
      destruct (_append_char_ok st s cs c Ho Hi) as (? & ? & E & ? & ?);
      rewrite (bind_step _ _ _ _ _ E); clear E; cbv beta iota
  end.

Lemma _append_str_ok c : forall st s cs,
  oracle st = [] -> tmp_inv st s cs ->
  exists s' st', _append_str s c st = Done (0, s') st'
    /\ oracle st' = [] /\ tmp_inv st' s' (cs ++ list_ascii_of_string c).
Proof.
  induction c as [|ch c IH]; intros st s cs Ho Hi; simpl.
  - rewrite app_nil_r. eauto.
  - ok_char. simpl.
    replace (cs ++ ch :: list_ascii_of_string c)
      with ((cs ++ [ch]) ++ list_ascii_of_string c)
      by (rewrite <- app_assoc; reflexivity).
    eauto.
Qed.

Lemma pad_loop_ok n : forall st s cs off,
  oracle st = [] -> tmp_inv st s cs ->
  exists s' st', pad_loop n s off st = Done (s', off + Z.of_nat n) st'
    /\ oracle st' = [] /\ tmp_inv st' s' (cs ++ replicate n "x"%char).
Proof.
  induction n as [|n IH]; intros st s cs off Ho Hi; simpl.
  - rewrite app_nil_r, Z.add_0_r. eauto.
  - ok_char.
    replace (cs ++ "x"%char :: replicate n "x"%char)
      with ((cs ++ ["x"%char]) ++ replicate n "x"%char)
      by (rewrite <- app_assoc; reflexivity).
    replace (off + Z.of_nat (S n)) with (off + 1 + Z.of_nat n) by lia.
    eauto.
Qed.

Lemma name_loop_ok p : forall st s cs,
  oracle st = [] -> tmp_inv st s cs ->
  exists s' st', name_loop p s st = Done ((name_chars p).1, s') st'
    /\ oracle st' = [] /\ tmp_inv st' s' (cs ++ (name_chars p).2).
Proof.
  induction p as [|ch p IH]; intros st s cs Ho Hi; simpl.
  - rewrite app_nil_r. eauto.
  - destruct (Ascii.eqb ch ":").
    + simpl. rewrite app_nil_r. unfold bind, PyErr_SetString, ret.
      eexists _, _. split; [reflexivity|]. split; auto.
    + ok_char. destruct (name_chars p) as [ok ns] eqn:En. simpl.
      replace (cs ++ ch :: ns) with ((cs ++ [ch]) ++ ns)
        by (rewrite <- app_assoc; reflexivity).
      match goal with
      | Ho' : oracle ?x0 = [], Hi' : tmp_inv ?x0 ?x _ |- _ =>
          destruct (IH x0 x _ Ho' Hi') as (s' & st' & E & ? & ?)
      end.
      simpl in *. eauto.
Qed.

Ltac ok_str :=
  match goal with
  | Ho : oracle ?st = [], Hi : tmp_inv ?st ?s ?cs
    |- context [bind (_append_str ?s ?c) _ ?st] =>
      let E := fresh "E" in
      destruct (_append_str_ok c st s cs Ho Hi) as (? & ? & E & ? & ?);
      rewrite (bind_step _ _ _ _ _ E); clear E; cbv beta iota
  | Ho : oracle ?st = [], Hi : tmp_inv ?st ?s ?cs
    |- context [bind (pad_loop ?n ?s ?off) _ ?st] =>
      let E := fresh "E" in
      destruct (pad_loop_ok n st s cs off Ho Hi) as (? & ? & E & ? & ?);
      rewrite (bind_step _ _ _ _ _ E); clear E; cbv beta iota
  | Ho : oracle ?st = [], Hi : tmp_inv ?st ?s ?cs
    |- context [bind (name_loop ?p ?s) _ ?st] =>
      let E := fresh "E" in
      destruct (name_loop_ok p st s cs Ho Hi) as (? & ? & E & ? & ?);
      rewrite (bind_step _ _ _ _ _ E); clear E; cbv beta iota
  end.

Lemma format_scalar_ok d st s cs off :
  oracle st = [] -> tmp_inv st s cs ->
  NDEBUG = true \/ scalar_asserts d = true ->
  exists s' st',
    format_scalar d s off st
    = Done (match scalar_chars d with Some _ => 0 | None => -1 end, s', off) st'
    /\ oracle st' = []
    /\ tmp_inv st' s'
         (cs ++ match scalar_chars d with
                | Some code => list_ascii_of_string code
                | None => []
                end).
Proof.
  intros Ho Hi Ha. unfold format_scalar, scalar_chars, scalar_asserts, emit in *.
  destruct (type_num d); try (ok_char; unfold ret; eauto); try (ok_str; unfold ret; eauto).
  - assert (assert (Z.rem (elsize d) 4 =? 0) st = Done tt st) as Eas.
    { unfold assert. destruct Ha as [-> | ->]; [reflexivity|].
      rewrite orb_true_r. reflexivity. }
    rewrite (bind_step _ _ _ _ _ Eas). ok_str. unfold ret. eauto.
  - unfold bind, PyErr_SetString, ret. rewrite app_nil_r. eauto.
Qed.

Lemma fields_loop_ok fs :
  Forall (fun f => child_ok f.1.2) fs ->
  forall st s cs off r out off',
    oracle st = [] -> tmp_inv st s cs ->
    NDEBUG = true \/ forallb (fun f => asserts_hold f.1.2) fs = true ->
    fields_chars format_chars fs off = (r, out, off') ->
    exists s' st',
      fields_loop _buffer_format_string fs s off st = Done (r, s', off') st'
      /\ oracle st' = []
      /\ tmp_inv st' s' (cs ++ out).
Proof.
  induction 1 as [|[[name child] new_offset] fs Hc _ IH]; simpl;
    intros st s cs off r out off' Ho Hi Ha Ef.
  - inversion Ef; subst. ok_char. unfold ret. eauto.
  - assert (NDEBUG = true \/ asserts_hold child = true) as Hac.
    { destruct Ha as [?|Ha]; auto. apply andb_true_iff in Ha as [? ?]. auto. }
    assert (NDEBUG = true \/ forallb (fun f => asserts_hold f.1.2) fs = true)
      as Hafs.
    { destruct Ha as [?|Ha]; auto. apply andb_true_iff in Ha as [? ?]. auto. }
    destruct (format_chars child _) as [[rc outc] offc] eqn:Ec.
    destruct (name_chars (list_ascii_of_string name)) as [ok ns] eqn:En.
    ok_str.
    match goal with
    | Ho' : oracle ?x0 = [], Hi' : tmp_inv ?x0 ?x _
      |- context [bind (_buffer_format_string child ?x ?o) _ ?x0] =>
        destruct (Hc x0 x _ _ _ _ _ Ho' Hi' Hac Ec) as (? & ? & E & ? & ?);
        rewrite (bind_step _ _ _ _ _ E); clear E; cbv beta iota
    end.
    ok_char. ok_str. rewrite En in *. simpl in *. destruct ok.
    + destruct (fields_chars format_chars fs offc) as [[r' rest] off''] eqn:Ef'.
      inversion Ef; subst. ok_char.
      match goal with
      | Ho' : oracle ?x0 = [], Hi' : tmp_inv ?x0 ?x _
        |- context [fields_loop _ fs ?x _ ?x0] =>
          destruct (IH x0 x _ _ _ _ _ Ho' Hi' Hafs Ef') as (s' & st' & E & ? & ?)
      end.
      exists s', st'. split; [exact E|]. split; auto.
      repeat (rewrite <- app_assoc in *; simpl in * ). assumption.
    + inversion Ef; subst.
      unfold ret. eexists _, _. split; [reflexivity|]. split; auto.
      repeat (rewrite <- app_assoc in *; simpl in * ). assumption.
Qed.

Lemma _buffer_format_string_eq d str offset :
  _buffer_format_string d str offset =
  if subarray d then
    PyErr_SetString PyExc_ValueError
      "data types with sub-arrays cannot be exported as buffers" ;;
    ret (-1, str, offset)
  else
    match fields d with
    | Some fs =>
        let* '(_, str) := _append_str str "T{" in
        fields_loop _buffer_format_string fs str offset
    | None =>
        let* str :=
          (if has_byteorder_char d then
             let* '(_, str) := _append_char str (byteorder d) in ret str
           else ret str) in
        format_scalar d str offset
    end.
Proof. destruct d; reflexivity. Qed.

Lemma format_chars_eq d offset :
  format_chars d offset =
  if subarray d then (-1, [], offset)
  else
    match fields d with
    | Some fs =>
        let '(r, cs, offset) := fields_chars format_chars fs offset in
        (r, "T"%char :: "{"%char :: cs, offset)
    | None =>
        match scalar_chars d with
        | Some code =>
            (0, byteorder_chars d ++ list_ascii_of_string code, offset)
        | None => (-1, byteorder_chars d, offset)
        end
    end.
Proof. destruct d; reflexivity. Qed.

Lemma translator_writes d : child_ok d.
Proof.
  induction d as [d Hf|d fs Hf IH] using PyArray_Descr_nested_ind;
    intros st s cs off r out off' Ho Hi Ha Ef;
    rewrite _buffer_format_string_eq; rewrite format_chars_eq in Ef;
    rewrite Hf in *; destruct (subarray d).
  - inversion Ef; subst.
    unfold bind, PyErr_SetString, ret. rewrite app_nil_r. eauto.
  - assert (NDEBUG = true \/ scalar_asserts d = true) as Hsa.
    { destruct Ha as [?|Ha]; auto. right.
      destruct d; simpl in *; subst; exact Ha. }
    unfold byteorder_chars in Ef.
    destruct (has_byteorder_char d) eqn:Ebo.
    + unfold bind at 1. ok_char. unfold ret at 1.
      match goal with
      | Ho' : oracle ?x0 = [], Hi' : tmp_inv ?x0 ?x _ |- _ =>
          destruct (format_scalar_ok d x0 x _ off Ho' Hi' Hsa)
            as (s' & st' & E & ? & ?)
      end.
      exists s', st'. destruct (scalar_chars d); inversion Ef; subst;
        simpl in *;
        repeat (rewrite <- app_assoc in *; simpl in * ); auto.
    + rewrite (bind_step _ _ _ s st) by reflexivity.
      destruct (format_scalar_ok d st s cs off Ho Hi Hsa)
        as (s' & st' & E & ? & ?).
      exists s', st'. destruct (scalar_chars d); inversion Ef; subst;
        simpl in *; auto.
  - inversion Ef; subst.
    unfold bind, PyErr_SetString, ret. rewrite app_nil_r. eauto.
  - destruct (fields_chars format_chars fs off) as [[r' rest] off''] eqn:Ef'.
    inversion Ef; subst.
    ok_str.
    assert (NDEBUG = true \/ forallb (fun f => asserts_hold f.1.2) fs = true)
      as Hafs.
    { destruct Ha as [?|Ha]; auto. right.
      destruct d; simpl in *; subst; exact Ha. }
    match goal with
    | Ho' : oracle ?x0 = [], Hi' : tmp_inv ?x0 ?x _ |- _ =>
        destruct (fields_loop_ok fs IH x0 x _ _ _ _ _ Ho' Hi' Hafs Ef')
          as (s' & st' & E & ? & ?)
    end.
    exists s', st'.
    split; [exact E|]. split; auto.
    repeat (rewrite <- app_assoc in *; simpl in * ). assumption.
Qed.
End TranslatorWrites.

(** ** The cache of shape and strides *)

Lemma mem_extends_refl m : mem_extends m m.
Proof. intros b x. auto. Qed.

Lemma mem_extends_trans m1 m2 m3 :
  mem_extends m1 m2 -> mem_extends m2 m3 -> mem_extends m1 m3.
Proof. intros H1 H2 b x Hb. auto. Qed.



Lemma shape_changed_loop_Done c self n : forall k b st st',
  shape_changed_loop c self k n st = Done b st' ->
  st' = st /\
  (b = false ->
   forall j, k <= j < k + Z.of_nat n -> matches_at (mem st) c self j).
Proof.
  induction n as [|n IH]; simpl; intros k b st st' E.
  - minv. split; auto. intros _ j Hj. lia.
  - minv; try (split; [reflexivity|discriminate]).
    apply IH in E as [-> Hrest]. split; auto.
    intros Hb j Hj.
    destruct (Z.eq_dec j k) as [->|Hne].
    + repeat match goal with
      | Hz : negb (_ =? _) = false |- _ =>
          apply negb_false_iff, Z.eqb_eq in Hz; subst
      end.
      unfold matches_at. eauto 10.
    + apply Hrest; auto. lia.
Qed.


Lemma store_word_Done p k v u st st' :
  store_word p k v st = Done u st' ->
  exists b o ws,
    p = Some (b, o) /\ mem st !! b = Some (Words ws)
    /\ 0 <= o + k < Z.of_nat (length ws)
    /\ st' = set_mem (<[b := Words (<[Z.to_nat (o + k) := v]> ws)]> (mem st)) st.
Proof.
  unfold store_word. destruct p as [[b o]|]; try discriminate.
  destruct (mem st !! b) as [[| ws | |]|] eqn:Eb; try discriminate.
  destruct (0 <=? o + k) eqn:E1; try discriminate.
  destruct (o + k <? Z.of_nat (length ws)) eqn:E2; try discriminate.
  simpl. intros E; inversion E; subst.
  apply Z.leb_le in E1. apply Z.ltb_lt in E2.
  exists b, o, ws. auto.
Qed.

Lemma snapshot_loop_fills c self b N :
  cache_shape c = Some (b, 0) -> cache_strides c = Some (b, N) ->
  forall n k st st' ws,
    0 <= k -> k + Z.of_nat n <= N ->
    mem st !! b = Some (Words ws) ->
    snapshot_loop c self k n st = Done tt st' ->
    exists ws',
      st' = set_mem (<[b := Words ws']> (mem st)) st
      /\ length ws' = length ws
      /\ (forall j, k <= j < k + Z.of_nat n ->
          exists d t,
            elem (dimensions self) j = Some d
            /\ elem (strides self) j = Some t
            /\ ws' !! Z.to_nat j = Some d
            /\ ws' !! Z.to_nat (N + j) = Some t)
      /\ (forall i : nat,
          ~ (k <= Z.of_nat i < k + Z.of_nat n) ->
          ~ (N + k <= Z.of_nat i < N + k + Z.of_nat n) ->
          ws' !! i = ws !! i).
Proof.
  intros Hsh Hst. induction n as [|n IH]; simpl; intros k st st' ws Hk HN Hb E.
  - unfold ret in E. injection E as Heq. subst st'.
    exists ws. split_and!; auto.
    + destruct st; unfold set_mem; simpl in *. f_equal.
      symmetry. apply list_insert_id. exact Hb.
    + intros j Hj. lia.
  - unfold PyArray_DIMS, PyArray_STRIDES in E. rewrite Hsh, Hst in E. minv.
    repeat match goal with
    | Hs : store_word _ _ _ _ = Done _ _ |- _ =>
        apply store_word_Done in Hs as (? & ? & ? & Hp & ? & ? & ->);
        injection Hp as <- <-
    end.
    simpl in *.
    pose proof (lookup_lt_Some _ _ _ Hb) as Hblt.
    rewrite list_lookup_insert_eq in * by assumption.
    repeat match goal with
    | Hb' : Some _ = Some (Words ?w) |- _ => inversion Hb'; subst; clear Hb'
    | Hb' : mem ?s !! b = Some (Words ?w) |- _ =>
        rewrite Hb in Hb'; inversion Hb'; subst; clear Hb'
    end.
    rewrite length_insert in *.
    eapply IH in E; [| lia | lia | ].
    2:{ simpl. apply list_lookup_insert_eq. rewrite length_insert. exact Hblt. }
    destruct E as (ws' & -> & Hlen & Hfill & Hrest).
    exists ws'. split_and!.
    + unfold set_mem. simpl. rewrite !list_insert_insert_eq. reflexivity.
    + rewrite Hlen, !length_insert. reflexivity.
    + intros j Hj. destruct (Z.eq_dec j k) as [->|Hne].
      * eexists _, _. split; [eassumption|]. split; [eassumption|].
        rewrite !Hrest by lia.
        rewrite Z.add_0_l in *. split.
        -- rewrite list_lookup_insert_ne by lia.
           apply list_lookup_insert_eq. lia.
        -- apply list_lookup_insert_eq. rewrite length_insert. lia.
      * apply Hfill. lia.
    + intros i Hi1 Hi2. rewrite Hrest by lia.
      rewrite Z.add_0_l in *.
      rewrite !list_lookup_insert_ne by lia. reflexivity.
Qed.


Lemma free_Done p u st st' :
  free p st = Done u st' ->
  (p = NULL /\ st' = st) \/
  (exists b x, p = Some (b, 0) /\ mem st !! b = Some x /\ x <> Freed
     /\ st' = set_mem (<[b := Freed]> (mem st)) st).
Proof.
  unfold free. destruct p as [[b o]|]; [|intros E; inversion E; auto].
  destruct (mem st !! b) as [x|] eqn:Eb; try discriminate.
  destruct (o =? 0) eqn:Eo.
  - apply Z.eqb_eq in Eo. subst o.
    destruct x; intros E; inversion E; subst; right; eexists _, _;
      split_and!; eauto; discriminate.
  - destruct x; discriminate.
Qed.

Lemma malloc_Done init p st st' :
  malloc init st = Done p st' ->
  arrays st' = arrays st /\ descrs st' = descrs st /\ pyerr st' = pyerr st /\
  ((p = NULL /\ mem st' = mem st) \/
   (p = Some (length (mem st), 0) /\ mem st' = mem st ++ [init])).
Proof.
  unfold malloc.
  destruct (oracle st) as [|[] o]; intros E; inversion E; subst; simpl; auto 10.
Qed.

Lemma store_cache_Done p c u st st' :
  store_cache p c st = Done u st' ->
  exists b old,
    p = Some (b, 0) /\ mem st !! b = Some (Cache old)
    /\ st' = set_mem (<[b := Cache (Some c)]> (mem st)) st.
Proof.
  unfold store_cache. destruct p as [[b [| |]]|]; try discriminate.
  destruct (mem st !! b) as [[| | old |]|] eqn:Eb; try discriminate.
  intros E; inversion E; subst. eauto.
Qed.

Lemma load_cache_Done p c st st' :
  load_cache p st = Done c st' ->
  st' = st /\ exists b, p = Some (b, 0) /\ mem st !! b = Some (Cache (Some c)).
Proof.
  unfold load_cache. destruct p as [[b [| |]]|]; try discriminate.
  destruct (mem st !! b) as [[| | [c'|] |]|] eqn:Eb; try discriminate.
  intros E; inversion E; subst. eauto.
Qed.

Lemma load_cache_ok b c st :
  mem st !! b = Some (Cache (Some c)) -> load_cache (Some (b, 0)) st = Done c st.
Proof. unfold load_cache. intros ->. reflexivity. Qed.



(** ** The exporter *)








Lemma with_buffer_info_id self : with_buffer_info (buffer_info self) self = self.
Proof. destruct self; reflexivity. Qed.

Lemma getbuffer_cache_Done obj self cache st st' :
  arrays st !! obj = Some self ->
  getbuffer_cache obj self st = Done cache st' ->
  arrays st' = <[obj := with_buffer_info cache self]> (arrays st)
  /\ descrs st' = descrs st /\ pyerr st' = pyerr st
  /\ mem_extends (mem st) (mem st')
  /\ (buffer_info self <> NULL -> cache = buffer_info self /\ st' = st).
Proof.
  intros Ha E. unfold getbuffer_cache in E.
  destruct (is_null (buffer_info self)) eqn:En.
  - apply bind_Done in E as (p & st1 & Em & E).
    apply bind_Done in E as (u & st2 & Es & E).
    apply bind_Done in E as (u2 & st3 & Ep & E).
    destruct u, u2.
    unfold ret in E. injection E as <- <-.
    apply malloc_Done in Em as (Ha1 & Hd1 & He1 & Hm1).
    apply store_cache_Done in Es as (cb & old & -> & Hcb & ->).
    unfold put_array in Ep. injection Ep as <-. simpl.
    rewrite Ha1. split_and!; auto.
    + destruct Hm1 as [[? Hm]|[Hp Hm]]; [discriminate|].
      injection Hp as ->. rewrite Hm.
      intros b x Hb. rewrite list_lookup_insert_ne.
      * apply lookup_app_l_Some. exact Hb.
      * apply lookup_lt_Some in Hb. lia.
    + intros Hnn. destruct (buffer_info self); [discriminate|contradiction].
  - unfold ret in E. injection E as <- <-.
    rewrite with_buffer_info_id, list_insert_id by assumption.
    split_and!; auto. apply mem_extends_refl.
Qed.

Lemma frame_mem_extends st st' :
  frame (length (mem st)) st st' -> mem_extends (mem st) (mem st').
Proof.
  intros [_ _ _ Hm] b x Hb. rewrite Hm; auto.
  eapply lookup_lt_Some; eauto.
Qed.

Section Exporter.
Context `{Headers}.

Lemma _append_char_nonnull s c r s' st st' :
  _append_char s c st = Done (r, s') st' -> tmp_s s' <> NULL.
Proof.
  unfold _append_char. intros E.
  apply bind_Done in E as (s1 & st1 & E1 & E).
  apply bind_Done in E as (g & st2 & E2 & E).
  destruct g as [s2|].
  - apply bind_Done in E as (u & st3 & Es & E). destruct u.
    unfold ret in E. injection E as <- <- <-. simpl.
    unfold store_char in Es. destruct (tmp_s s2); [discriminate|discriminate Es].
  - apply bind_Done in E as (u & st3 & Es & E). destruct u.
    unfold ret in E. injection E as <- <- <-.
    destruct (is_null (tmp_s s)) eqn:En.
    + apply bind_Done in E1 as (p & st4 & Em & E1).
      unfold ret in E1. injection E1 as <- <-. simpl in E2.
      unfold ret in E2. discriminate E2.
    + unfold ret in E1. injection E1 as <- <-.
      destruct (tmp_s s); [discriminate|discriminate En].
Qed.

Lemma getbuffer_format_Done self flags f st st' :
  getbuffer_format self flags st = Done f st' ->
  arrays st' = arrays st
  /\ mem_extends (mem st) (mem st')
  /\ (f = None -> is_Some (pyerr st'))
  /\ (has_flags flags PyBUF_FORMAT = true ->
      forall p, f = Some p ->
        p <> NULL /\
        exists d, descrs st' !! descr self = Some d /\ buffer_format d = p)
  /\ (has_flags flags PyBUF_FORMAT = false -> f = Some NULL /\ st' = st)
  /\ (forall d, descrs st !! descr self = Some d -> buffer_format d <> NULL ->
      st' = st).
Proof.
  unfold getbuffer_format, PyArray_DESCR, get_descr. intros E.
  destruct (has_flags flags PyBUF_FORMAT) eqn:Ef; cbv iota in E.
  2:{ unfold ret in E. injection E as <- <-.
      split_and!; auto using mem_extends_refl; try discriminate. }
  unfold bind at 1 in E.
  destruct (descrs st !! descr self) as [d|] eqn:Ed; [|discriminate].
  destruct (is_null (buffer_format d)) eqn:En; cbv iota in E.
  - apply bind_Done in E as ([[r fmt] off] & st1 & Eenc & E).
    apply _buffer_format_string_frame
      with (n0 := length (mem st)) (st0 := st) in Eenc as (F1 & O1 & Herr);
      [|apply frame_refl; auto|exact I].
    destruct (negb (r =? 0)) eqn:Er; cbv iota in E.
    + unfold ret in E. injection E as <- <-.
      split_and!; auto using frame_mem_extends; try apply F1; try discriminate.
      * intros _. apply Herr. intros ->. discriminate.
      * intros d' Hd' Hd. injection Hd' as <-.
        destruct (buffer_format d);
          [discriminate En|exfalso; apply Hd; reflexivity].
    + apply bind_Done in E as ([r2 fmt2] & st2 & Eapp & E).
      pose proof (_append_char_nonnull _ _ _ _ _ _ Eapp) as Hnn.
      apply _append_char_frame
        with (n0 := length (mem st)) (st0 := st) in Eapp as (F2 & O2 & _); auto.
      apply bind_Done in E as (u & st3 & Eput & E). destruct u.
      unfold ret in E. injection E as <- <-.
      unfold put_descr in Eput. injection Eput as <-. simpl.
      split_and!; auto using frame_mem_extends; try apply F2; try discriminate.
      * intros _ p Hp. injection Hp as <-. split; auto.
        exists (with_buffer_format (tmp_s fmt2) d). split; [|reflexivity].
        rewrite (frame_descrs _ _ _ F2).
        apply list_lookup_insert_eq. eapply lookup_lt_Some; eauto.
      * intros d' Hd' Hd. injection Hd' as <-.
        destruct (buffer_format d);
          [discriminate En|exfalso; apply Hd; reflexivity].
  - unfold ret in E. injection E as <- <-.
    split_and!; auto using mem_extends_refl; try discriminate.
    intros _ p Hp. injection Hp as <-. split; eauto.
    destruct (buffer_format d); [discriminate|discriminate].
Qed.

Lemma get_array_Done obj a st st' :
  get_array obj st = Done a st' -> st' = st /\ arrays st !! obj = Some a.
Proof.
  unfold get_array. destruct (arrays st !! obj); intros E; inversion E; auto.
Qed.

Lemma get_descr_Done i d st st' :
  get_descr i st = Done d st' -> st' = st /\ descrs st !! i = Some d.
Proof.
  unfold get_descr. destruct (descrs st !! i); intros E; inversion E; auto.
Qed.

Lemma PyArray_ITEMSIZE_Done self n st st' :
  PyArray_ITEMSIZE self st = Done n st' -> st' = st.
Proof.
  unfold PyArray_ITEMSIZE, PyArray_DESCR. intros E.
  apply bind_Done in E as (d & st1 & Ed & E).
  apply get_descr_Done in Ed as [-> _]. unfold ret in E. injection E as _ <-.
  reflexivity.
Qed.

Lemma PyArray_NBYTES_Done self n st st' :
  PyArray_NBYTES self st = Done n st' -> st' = st.
Proof.
  unfold PyArray_NBYTES. intros E.
  apply bind_Done in E as (d & st1 & Ed & E).
  apply PyArray_ITEMSIZE_Done in Ed as ->. unfold ret in E.
  injection E as _ <-. reflexivity.
Qed.

Lemma array_getbuffer_success obj view flags v st st' :
  array_getbuffer obj (Some view) flags st = Done (0, Some v) st' ->
  exists self cache st1 st2,
    arrays st !! obj = Some self
    /\ getbuffer_cache obj self st = Done cache st1
    /\ getbuffer_format self flags st1 = Done (Some (view_format v)) st2
    /\ view_readonly v = negb (PyArray_ISWRITEABLE self)
    /\ ((has_flags flags PyBUF_STRIDED = true
         /\ view_ndim v = nd self
         /\ exists st3,
              getbuffer_strided self cache st2
              = Done (view_shape v, view_strides v) st3
              /\ took_reference obj st3 st')
        \/ (has_flags flags PyBUF_STRIDED = false
            /\ PyArray_ISONESEGMENT self = true
            /\ view_ndim v = 0 /\ view_shape v = NULL /\ view_strides v = NULL
            /\ took_reference obj st2 st')).
Proof.
  unfold array_getbuffer. intros E.
  apply bind_Done in E as (self & st0 & Eget & E).
  apply get_array_Done in Eget as [-> Hself].
  apply bind_Done in E as (cache & st1 & Ecache & E).
  exists self, cache, st1.
  destruct (has_flags flags PyBUF_C_CONTIGUOUS
            && negb (PyArray_CHKFLAGS self NPY_C_CONTIGUOUS)).
  { apply bind_Done in E as (? & ? & _ & E). discriminate E. }
  destruct (has_flags flags PyBUF_F_CONTIGUOUS
            && negb (PyArray_CHKFLAGS self NPY_F_CONTIGUOUS)).
  { apply bind_Done in E as (? & ? & _ & E). discriminate E. }
  destruct (has_flags flags PyBUF_ANY_CONTIGUOUS
            && negb (PyArray_ISONESEGMENT self)).
  { apply bind_Done in E as (? & ? & _ & E). discriminate E. }
  apply bind_Done in E as (itemsize & st1a & Ei & E).
  apply PyArray_ITEMSIZE_Done in Ei as ->.
  apply bind_Done in E as (len & st1b & El & E).
  apply PyArray_NBYTES_Done in El as ->.
  apply bind_Done in E as (f & st2 & Ef & E).
  destruct f as [f|]; [|discriminate E].
  exists st2.
  destruct (has_flags flags PyBUF_STRIDED) eqn:Es.
  - apply bind_Done in E as ([shape strs] & st3 & Estr & E).
    apply bind_Done in E as (self3 & st3a & Eg & E).
    apply get_array_Done in Eg as [-> Hself3].
    apply bind_Done in E as (u & st4 & Eput & E). destruct u.
    unfold put_array in Eput. injection Eput as <-.
    unfold ret in E. injection E as <- <-. simpl.
    split_and!; auto. left. split_and!; auto.
    exists st3. split; auto. exists self3. auto.
  - destruct (PyArray_ISONESEGMENT self) eqn:Eone.
    + apply bind_Done in E as (self3 & st3a & Eg & E).
      apply get_array_Done in Eg as [-> Hself3].
      apply bind_Done in E as (u & st4 & Eput & E). destruct u.
      unfold put_array in Eput. injection Eput as <-.
      unfold ret in E. injection E as <- <-. simpl.
      split_and!; auto. right. split_and!; auto.
      exists self3. auto.
    + apply bind_Done in E as (? & ? & _ & E). discriminate E.
Qed.








End Exporter.
(** ** What the translator writes for scalars and for a record of two *)

Lemma tmp_inv_contents st s cs : tmp_inv st s cs -> tmp_contents st s = Some cs.
Proof.
  unfold tmp_inv, tmp_contents. destruct (tmp_s s) as [[b o]|].
  - intros (_ & buf & -> & _ & _ & _ & <-). reflexivity.
  - intros ->. reflexivity.
Qed.



Section Encoding.
Context `{Headers}.

Lemma translator_writes_fresh d st r out off' :
  oracle st = [] -> NDEBUG = true \/ asserts_hold d = true ->
  format_chars d 0 = (r, out, off') ->
  exists s' st',
    _buffer_format_string d (mk_tmp NULL 0 0) 0 st = Done (r, s', off') st'
    /\ oracle st' = [] /\ tmp_contents st' s' = Some out
    /\ (r = 0 -> encoded d st = Some (string_of_list_ascii out)).
Proof.
  intros Ho Ha Ef.
  destruct (translator_writes d st (mk_tmp NULL 0 0) [] 0 r out off' Ho
              eq_refl Ha Ef) as (s' & st' & E & Ho' & Hi).
  exists s', st'. apply tmp_inv_contents in Hi. simpl in Hi.
  split_and!; auto. intros ->. unfold encoded. rewrite E, Hi. reflexivity.
Qed.

(** C3, as amended.  A record of an unsigned byte named [a] at offset 0 and
    a double named [b] at offset 8, of size 16, is encoded as [T{], the byte's
    byte-order character if it has one, [B:a:], seven [x], the double's
    byte-order character if it has one, and [d:b:}]; that is [T{B:a:xxxxxxxd:b:}]
    exactly when neither field carries one of [<], [>], [=] (no allocation
    failing). *)
Theorem record_a_b_format t bo f bo_a fa bo_b fb st :
  let a := mk_descr NPY_UBYTE bo_a 1 false None fa in
  let b := mk_descr NPY_DOUBLE bo_b 8 false None fb in
  let d := mk_descr t bo 16 false
             (Some [("a"%string, a, 0); ("b"%string, b, 8)]) f in
  oracle st = [] ->
  encoded d st
  = Some ("T{" ++ byteorder_marker a ++ "B:a:xxxxxxx"
               ++ byteorder_marker b ++ "d:b:}")%string
  /\ (has_byteorder_char a = false -> has_byteorder_char b = false ->
      encoded d st = Some "T{B:a:xxxxxxxd:b:}"%string).
Proof.
  intros a b d Ho.
  assert (encoded d st
          = Some ("T{" ++ byteorder_marker a ++ "B:a:xxxxxxx"
                       ++ byteorder_marker b ++ "d:b:}")%string) as Henc.
  { destruct (format_chars d 0) as [[r out] off'] eqn:Ef.
    destruct (translator_writes_fresh d st r out off' Ho (or_intror eq_refl) Ef)
      as (s' & st' & _ & _ & _ & Henc).
    unfold d, a, b in Ef. simpl in Ef. unfold byteorder_chars in Ef.
    unfold byteorder_marker.
    destruct (has_byteorder_char a) eqn:Ea; unfold a in Ea; rewrite Ea in Ef;
      destruct (has_byteorder_char b) eqn:Eb; unfold b in Eb; rewrite Eb in Ef;
      simpl in Ef; injection Ef as <- <- <-; rewrite Henc by reflexivity;
      reflexivity. }
  split; [exact Henc|].
  intros Ea Eb. rewrite Henc. unfold byteorder_marker. rewrite Ea, Eb.
  reflexivity.
Qed.



End Encoding.

(** ** Requests without shape and strides *)

Lemma getbuffer_cache_ok obj self st :
  oracle st = [] ->
  exists cache st1,
    getbuffer_cache obj self st = Done cache st1
    /\ oracle st1 = [] /\ descrs st1 = descrs st.
Proof.
  intros Ho. unfold getbuffer_cache. destruct (is_null (buffer_info self)).
  - rewrite (bind_step _ _ _ _ _ (malloc_ok _ _ Ho)).
    unfold bind, store_cache, put_array, ret. simpl.
    rewrite list_lookup_middle by reflexivity.
    eexists _, _. split; [reflexivity|]. simpl. auto.
  - unfold ret. eauto.
Qed.

Section Rejection.
Context `{Headers}.


End Rejection.

(** ** The format string is computed once *)

Lemma same_objects_refl st : same_objects st st.
Proof. repeat split. Qed.

Lemma same_objects_trans st1 st2 st3 :
  same_objects st1 st2 -> same_objects st2 st3 -> same_objects st1 st3.
Proof. intros (? & ? & ?) (? & ? & ?). repeat split; congruence. Qed.

Lemma snapshot_loop_objects c self n : forall k st st',
  snapshot_loop c self k n st = Done tt st' -> same_objects st st'.
Proof.
  induction n as [|n IH]; simpl; intros k st st' E.
  - unfold ret in E. injection E as <-. apply same_objects_refl.
  - apply bind_Done in E as (d & st1 & E1 & E).
    apply array_elem_Done in E1 as [-> _].
    apply bind_Done in E as (u & st2 & E2 & E).
    apply store_word_Done in E2 as (? & ? & ? & _ & _ & _ & ->).
    apply bind_Done in E as (t & st3 & E3 & E).
    apply array_elem_Done in E3 as [-> _].
    apply bind_Done in E as (u2 & st4 & E4 & E).
    apply store_word_Done in E4 as (? & ? & ? & _ & _ & _ & ->).
    apply IH in E. destruct E as (? & ? & ?). repeat split; assumption.
Qed.

Lemma replace_snapshot_objects self cache c r st st' :
  replace_snapshot self cache c st = Done r st' -> same_objects st st'.
Proof.
  unfold replace_snapshot. intros E.
  apply bind_Done in E as (u & st1 & Efree & E).
  apply bind_Done in E as (p & st2 & Emalloc & E).
  apply bind_Done in E as (u2 & st3 & Estore & E).
  apply bind_Done in E as (u3 & st4 & Eloop & E). destruct u, u2, u3.
  unfold ret in E. injection E as _ <-.
  assert (same_objects st st1) as H1.
  { destruct (negb (is_null (cache_shape c))).
    - apply free_Done in Efree as [[_ ->]|(? & ? & _ & _ & _ & ->)];
        repeat split.
    - unfold ret in Efree. injection Efree as <-. apply same_objects_refl. }
  apply malloc_Done in Emalloc as (? & ? & ? & _).
  apply store_cache_Done in Estore as (? & ? & _ & _ & ->).
  apply snapshot_loop_objects in Eloop.
  destruct H1 as (? & ? & ?), Eloop as (? & ? & ?). simpl in *.
  repeat split; congruence.
Qed.

Lemma getbuffer_strided_objects self cache r st st' :
  getbuffer_strided self cache st = Done r st' -> same_objects st st'.
Proof.
  unfold getbuffer_strided. intros E.
  apply bind_Done in E as (c & st1 & Eload & E).
  apply load_cache_Done in Eload as [-> _].
  apply bind_Done in E as (ch & st2 & Eloop & E).
  assert (st2 = st) as ->.
  { destruct (negb (cache_nd c =? PyArray_NDIM self)).
    - unfold ret in Eloop. injection Eloop as _ <-. reflexivity.
    - apply shape_changed_loop_Done in Eloop as [-> _]. reflexivity. }
  destruct (is_null (cache_strides c) || ch).
  - eapply replace_snapshot_objects; eauto.
  - unfold ret in E. injection E as _ <-. apply same_objects_refl.
Qed.

Section FormatCache.
Context `{Headers}.

(** What a successful export leaves of the stores: the descriptors change
    at most in the slot of the format string, the exported array in its
    count and cache pointer, every other array not at all. *)
Lemma array_getbuffer_stores obj view flags v st st' self :
  arrays st !! obj = Some self ->
  array_getbuffer obj (Some view) flags st = Done (0, Some v) st' ->
  (exists cache,
     arrays st' = <[obj := Py_INCREF (with_buffer_info cache self)]> (arrays st))
  /\ (has_flags flags PyBUF_FORMAT = true ->
      view_format v <> NULL
      /\ exists d, descrs st' !! descr self = Some d
                   /\ buffer_format d = view_format v)
  /\ (forall d, descrs st !! descr self = Some d -> buffer_format d <> NULL ->
      descrs st' = descrs st).
Proof.
  intros Hself E.
  apply array_getbuffer_success in E
    as (self' & cache & st1 & st2 & Hself' & Ecache & Efmt & _ & Hrest).
  rewrite Hself in Hself'. injection Hself' as <-.
  apply getbuffer_cache_Done in Ecache as (Ha1 & Hd1 & _ & _ & _); auto.
  apply getbuffer_format_Done in Efmt as (Ha2 & _ & _ & Hfmt & _ & Hcached).
  assert (exists st3, same_objects st2 st3 /\ took_reference obj st3 st')
    as (st3 & (Ha3 & Hd3 & _) & Href).
  { destruct Hrest as [(_ & _ & st3 & Estr & Href)|(_ & _ & _ & _ & _ & Href)].
    - exists st3. split; auto. eapply getbuffer_strided_objects; eauto.
    - exists st2. split; auto. apply same_objects_refl. }
  assert (arrays st3 !! obj = Some (with_buffer_info cache self)) as Hs3.
  { rewrite Ha3, Ha2, Ha1. apply list_lookup_insert_eq.
    eapply lookup_lt_Some; eauto. }
  destruct Href as (a & Ha & ->). rewrite Hs3 in Ha. injection Ha as <-.
  simpl. split_and!.
  - exists cache. rewrite Ha3, Ha2, Ha1. apply list_insert_insert_eq.
  - intros Hf. destruct (Hfmt Hf _ eq_refl) as (Hnn & d & Hd & Hb).
    split; auto. exists d. split; auto. rewrite Hd3. exact Hd.
  - intros d Hd Hnn. rewrite Hd3. rewrite <- Hd1 in Hd.
    rewrite (Hcached d Hd Hnn). exact Hd1.
Qed.

Lemma getbuffer_format_cached self flags d st :
  descrs st !! descr self = Some d -> buffer_format d <> NULL ->
  has_flags flags PyBUF_FORMAT = true ->
  getbuffer_format self flags st = Done (Some (buffer_format d)) st.
Proof.
  intros Hd Hnn Hf. unfold getbuffer_format, PyArray_DESCR, bind, get_descr.
  rewrite Hf, Hd. destruct (buffer_format d); [reflexivity|contradiction].
Qed.

(** C9.  After an export that delivered a format string, a later export
    asking for the format of the same descriptor (through the same array or
    another one) hands out the very same string: the pointer stored on the
    descriptor, which is not NULL; the format part of that later call finds it
    there and returns it without changing the state, and the descriptors are
    left as they were. *)
Theorem format_string_computed_once
    obj1 obj2 a1 a2 view1 view2 flags1 flags2 v1 v2 st st1 st2 :
  arrays st !! obj1 = Some a1 -> arrays st !! obj2 = Some a2 ->
  descr a1 = descr a2 ->
  has_flags flags1 PyBUF_FORMAT = true ->
  has_flags flags2 PyBUF_FORMAT = true ->
  array_getbuffer obj1 (Some view1) flags1 st = Done (0, Some v1) st1 ->
  array_getbuffer obj2 (Some view2) flags2 st1 = Done (0, Some v2) st2 ->
  view_format v1 <> NULL
  /\ view_format v2 = view_format v1
  /\ descrs st2 = descrs st1
  /\ (exists d, descrs st1 !! descr a1 = Some d
                /\ buffer_format d = view_format v1)
  /\ getbuffer_format a2 flags2 st1 = Done (Some (view_format v1)) st1.
Proof.
  intros Ha1 Ha2 Hdescr Hf1 Hf2 E1 E2.
  destruct (array_getbuffer_stores _ _ _ _ _ _ _ Ha1 E1)
    as ((cache & Harr) & Hfmt & _).
  destruct (Hfmt Hf1) as (Hnn & d & Hd & Hb).
  assert (exists a2', arrays st1 !! obj2 = Some a2' /\ descr a2' = descr a2)
    as (a2' & Ha2' & Hd2').
  { rewrite Harr. destruct (decide (obj1 = obj2)) as [<-|Hne].
    - rewrite list_lookup_insert_eq by (eapply lookup_lt_Some; eauto).
      eexists. split; [reflexivity|]. simpl. congruence.
    - rewrite list_lookup_insert_ne by auto. eauto. }
  assert (descrs st1 !! descr a2' = Some d) as Hd' by congruence.
  assert (buffer_format d <> NULL) as Hbn by congruence.
  pose proof E2 as E2'.
  apply array_getbuffer_success in E2'
    as (self' & cache2 & st1a & st2a & Hself' & Ecache & Efmt & _).
  rewrite Ha2' in Hself'. injection Hself' as <-.
  apply getbuffer_cache_Done in Ecache as (_ & Hd1a & _); auto.
  rewrite (getbuffer_format_cached a2' flags2 d st1a) in Efmt;
    auto; [|congruence].
  injection Efmt as Hv2 _.
  destruct (array_getbuffer_stores _ _ _ _ _ _ _ Ha2' E2) as (_ & _ & Hkeep).
  split_and!; auto.
  - congruence.
  - eauto.
  - eauto.
  - rewrite <- Hb. apply getbuffer_format_cached; auto. congruence.
Qed.
End FormatCache.

(** ** The snapshot is handed out again until the layout changes *)

Section Snapshot.
Context `{Headers}.

End Snapshot.

(** ** Where the code departs from the specification *)

(** C1 (code at fault).  A read-only array is exported to a request that
    demands write access: [array_getbuffer] returns 0 and only marks the view
    read-only; no error is raised.  The old accessor [array_getwritebuf]
    refuses the same array. *)
Theorem readonly_buffer_exported_for_writing : forall ndebug,
  @PyArray_ISWRITEABLE (std_headers ndebug)
    (mk_array 1 4096 1 [3] [8] 0 0x0001 NULL) = false
  /\ has_flags 0x0001 (@PyBUF_WRITABLE (std_headers ndebug)) = true
  /\ (exists v st',
        array_getbuffer (H := std_headers ndebug) 0 (Some empty_view) 0x0001
          readonly_state = Done (0, Some v) st'
        /\ view_readonly v = true /\ pyerr st' = None)
  /\ (exists st',
        array_getwritebuf (H := std_headers ndebug) 0 0 readonly_state
        = Done (-1, None) st'
        /\ pyerr st'
           = Some (PyExc_ValueError,
                   "array cannot be accessed as a writeable buffer"%string)).
Proof.
  intros []; vm_compute; split_and!; try reflexivity;
    eexists _, _ || eexists; split_and!; reflexivity.
Qed.

(** What the top-level test of the translator does: a descriptor that is
    itself a sub-array is refused, and the format part of the export stores
    nothing. *)
Lemma subarray_descriptor_refused `{Headers} self flags d st :
  descrs st !! descr self = Some d -> subarray d = true ->
  buffer_format d = NULL -> has_flags flags PyBUF_FORMAT = true ->
  getbuffer_format self flags st
  = Done None
      (set_pyerr
         (Some (PyExc_ValueError,
                "data types with sub-arrays cannot be exported as buffers"%string))
         st).
Proof.
  intros Hd Hsub Hbf Hf.
  unfold getbuffer_format, PyArray_DESCR, bind, get_descr.
  rewrite Hf, Hd, Hbf, _buffer_format_string_eq, Hsub. reflexivity.
Qed.

(** C2 (code at fault).  A record whose field is a sub-array is exported with
    a format string: the translator's error on the field is dropped by the
    loop over the fields, [array_getbuffer] returns 0, and the string
    [T{:a:}] is handed out and stored on the descriptor, with the error of the
    field left pending. *)
Theorem subarray_field_encoded : forall ndebug,
  exists v st' d,
    array_getbuffer (H := std_headers ndebug) 0 (Some empty_view) 0x0004
      subarray_state = Done (0, Some v) st'
    /\ c_string st' (view_format v) = Some "T{:a:}"%string
    /\ descrs st' !! 0%nat = Some d /\ buffer_format d = view_format v
    /\ view_format v <> NULL
    /\ pyerr st'
       = Some (PyExc_ValueError,
               "data types with sub-arrays cannot be exported as buffers"%string).
Proof.
  intros []; vm_compute; eexists _, _, _; split_and!; try reflexivity;
    discriminate.
Qed.

(** C4 (code at fault).  The array of [doubles_exported] holds a snapshot of
    extents [2] and strides [8] in block 1.  Its extent changes to 3 and the
    next [malloc] fails: the export releases the old snapshot, overwrites the
    cache, and then writes through the NULL it got (undefined behaviour), with
    no error raised.  When instead the array has become zero-dimensional, the
    export with the failing [malloc] returns 0, again after releasing the old
    snapshot and with no error raised. *)
Theorem failed_allocation_loses_snapshot : forall ndebug,
  words_at doubles_exported (Some (1%nat, 0)) 1 = Some [2]
  /\ (exists st',
        array_getbuffer (H := std_headers ndebug) 0 (Some empty_view) 0x19
          (set_oracle [false] (with_layout 0 1 [3] [8] doubles_exported))
        = Fault st'
        /\ is_freed st' (Some (1%nat, 0)) = true
        /\ (exists c, load_cache (Some (0%nat, 0)) st' = Done c st'
                      /\ cache_nd c = 1 /\ cache_shape c = NULL)
        /\ pyerr st' = None)
  /\ (exists v st',
        array_getbuffer (H := std_headers ndebug) 0 (Some empty_view) 0x19
          (set_oracle [false] (with_layout 0 0 [] [] doubles_exported))
        = Done (0, Some v) st'
        /\ view_shape v = NULL
        /\ is_freed st' (Some (1%nat, 0)) = true
        /\ pyerr st' = None).
Proof.
  intros []; vm_compute; split_and!; try reflexivity;
    eexists _, _ || eexists; split_and!; try reflexivity;
    eexists; split_and!; reflexivity.
Qed.

(** C7 (code at fault).  A first view takes the snapshot in block 1; the
    extent changes; a second export releases block 1 at once although the
    first view has not been released (the array's count, 1 at the start,
    stands at 3).  Destroying the array later frees the second snapshot:
    snapshot storage is freed twice over the array's life, and the first one
    before destruction. *)
Theorem snapshot_freed_under_outstanding_view : forall ndebug,
  exists v1 v2 st2 st3 a,
    array_getbuffer (H := std_headers ndebug) 0 (Some empty_view) 0x19
      doubles_state = Done (0, Some v1) doubles_exported
    /\ view_shape v1 = Some (1%nat, 0)
    /\ array_getbuffer (H := std_headers ndebug) 0 (Some empty_view) 0x19
         (with_layout 0 1 [3] [8] doubles_exported) = Done (0, Some v2) st2
    /\ arrays st2 !! 0%nat = Some a /\ ob_refcnt a = 3
    /\ is_freed st2 (view_shape v1) = true
    /\ view_shape v2 = Some (2%nat, 0)
    /\ is_freed st2 (view_shape v2) = false
    /\ _array_dealloc_buffer_info 0 st2 = Done tt st3
    /\ is_freed st3 (view_shape v2) = true.
Proof.
  intros []; vm_compute; eexists _, _, _, _, _; split_and!; reflexivity.
Qed.

(** C3, counterexample.  With the double in native byte order the string
    carries the marker [=] before [d]. *)
Lemma native_double_field_has_marker :
  encoded (H := std_headers true) record_a_b empty_state
  = Some "T{B:a:xxxxxxx=d:b:}"%string
  /\ encoded (H := std_headers true) record_a_b empty_state
     <> Some "T{B:a:xxxxxxxd:b:}"%string.
Proof. vm_compute. split; [reflexivity|discriminate]. Qed.


(** ** The theorems at concrete inputs *)

(** C3: [record_a_b_format] on the record with a native double. *)
Lemma record_a_b_format_witness :
  oracle empty_state = []
  /\ encoded (H := std_headers true) record_a_b empty_state
     = Some "T{B:a:xxxxxxx=d:b:}"%string.
Proof.
  split; [reflexivity|].
  exact (proj1 (record_a_b_format (H := std_headers true) (NPY_OTHER 20) "|"
                  NULL "|" NULL "=" NULL empty_state eq_refl)).
Defined.




(** C9: [format_string_computed_once] on two exports of one array. *)
Lemma format_string_computed_once_witness :
  arrays doubles_state !! 0%nat
  = Some (mk_array 1 4096 1 [2] [8] 0 0x0501 NULL)
  /\ has_flags 0x04 (@PyBUF_FORMAT (std_headers true)) = true
  /\ format_run1 = Done (0, Some (view_of format_run1)) (final_state format_run1)
  /\ format_run2 = Done (0, Some (view_of format_run2)) (final_state format_run2)
  /\ view_format (view_of format_run1) <> NULL
  /\ view_format (view_of format_run2) = view_format (view_of format_run1)
  /\ descrs (final_state format_run2) = descrs (final_state format_run1).
Proof.
  repeat (split; [reflexivity|]).
  assert (format_run1
          = Done (0, Some (view_of format_run1)) (final_state format_run1))
    as E1 by (vm_compute; reflexivity).
  assert (format_run2
          = Done (0, Some (view_of format_run2)) (final_state format_run2))
    as E2 by (vm_compute; reflexivity).
  destruct (format_string_computed_once (H := std_headers true) 0%nat 0%nat
              (mk_array 1 4096 1 [2] [8] 0 0x0501 NULL)
              (mk_array 1 4096 1 [2] [8] 0 0x0501 NULL)
              empty_view empty_view 0x04 0x04 _ _ doubles_state _ _
              eq_refl eq_refl eq_refl eq_refl eq_refl E1 E2)
    as (Hnn & Hsame & Hd & _).
  split; [exact Hnn|]. split; [exact Hsame|exact Hd].
Defined.


(** * Further properties of the code *)

(** ** The translator when the allocator fails *)

Lemma realloc_cases b buf n st :
  mem st !! b = Some (Chars buf) ->
  (exists o, oracle st = false :: o
             /\ realloc (Some (b, 0)) n st = Done NULL (set_oracle o st))
  \/ realloc (Some (b, 0)) n st =
     Done (Some (length (mem st), 0))
       (set_oracle (tail (oracle st))
          (set_mem (<[b := Freed]> (mem st)
                    ++ [Chars (take (Z.to_nat n) buf
                               ++ replicate (Z.to_nat n - length buf) NUL)]) st)).
Proof.
  unfold realloc. intros Hb. rewrite Hb. simpl.
  destruct (oracle st) as [|[] o]; eauto.
Qed.

Section AllocationFailure.
Context `{Headers}.

(** Every way a call of [_append_char] can end, whatever the allocator
    answers. *)
Lemma _append_char_cases s c cs st :
  tmp_inv st s cs ->
  match _append_char s c st with
  | Done (r, s') st' =>
      tmp_s s' <> NULL
      /\ ((r = 0 /\ tmp_inv st' s' (cs ++ [c]) /\ pyerr st' = pyerr st)
          \/ (r = -1 /\ s' = s /\ mem st' = mem st
              /\ (exists o, oracle st = false :: o)
              /\ pyerr st'
                 = Some (PyExc_MemoryError, "memory allocation failed"%string)))
  | Fault _ => tmp_s s = NULL /\ exists o, oracle st = false :: o
  | Abort _ => False
  end.
Proof.
  intros Hinv. unfold _append_char, tmp_inv in *.
  destruct (tmp_s s) as [[b o]|] eqn:Es; simpl.
  - destruct Hinv as (-> & buf & Hb & Hlen & Hpos & Hrange & Htake).
    pose proof (lookup_lt_Some _ _ _ Hb) as Hblt.
    unfold bind at 1. unfold ret at 1.
    destruct (tmp_allocated s <=? tmp_pos s) eqn:Hfull.
    + apply Z.leb_le in Hfull.
      set (buf' := take (Z.to_nat (2 * tmp_allocated s)) buf
                   ++ replicate (Z.to_nat (2 * tmp_allocated s) - length buf) NUL).
      assert (length buf' = Z.to_nat (2 * tmp_allocated s)) as Hl'.
      { unfold buf'. rewrite length_app, length_take, length_replicate. lia. }
      assert (take (Z.to_nat (tmp_pos s)) buf' = cs) as Ht'.
      { unfold buf'. rewrite take_app_le by (rewrite length_take; lia).
        rewrite take_take. rewrite Nat.min_l by lia. exact Htake. }
      unfold bind. rewrite Es.
      destruct (realloc_cases b buf (2 * tmp_allocated s) st Hb)
        as [(o & Ho & ->)| ->].
      * simpl. unfold PyErr_SetString, ret. simpl. rewrite Es.
        split; [discriminate|]. right. split_and!; eauto.
      * simpl. fold buf'.
        erewrite (store_char_ok (length (mem st)) buf').
        2:{ simpl. rewrite <- (length_insert (mem st) b Freed).
            apply list_lookup_middle. reflexivity. }
        2:{ lia. }
        unfold ret. simpl. split; [discriminate|]. left.
        split; [reflexivity|]. split; [|reflexivity].
        split; [reflexivity|].
        eexists. split.
        { apply list_lookup_insert_eq. rewrite length_app, length_insert. simpl. lia. }
        rewrite length_insert.
        split; [lia|]. split; [lia|]. split; [lia|].
        replace (Z.to_nat (tmp_pos s + 1)) with (S (Z.to_nat (tmp_pos s))) by lia.
        rewrite take_succ_insert by lia. rewrite Ht'. reflexivity.
    + apply Z.leb_gt in Hfull.
      unfold bind, ret. rewrite Es.
      erewrite (store_char_ok b buf) by (auto; lia).
      simpl. split; [discriminate|]. left.
      split; [reflexivity|]. split; [|reflexivity].
      split; [reflexivity|].
      eexists. split.
      { apply list_lookup_insert_eq. exact Hblt. }
      rewrite length_insert.
      split; [lia|]. split; [lia|]. split; [lia|].
      replace (Z.to_nat (tmp_pos s + 1)) with (S (Z.to_nat (tmp_pos s))) by lia.
      rewrite take_succ_insert by lia. rewrite Htake. reflexivity.
  - subst cs. unfold bind at 1. unfold bind at 1. unfold malloc.
    destruct (oracle st) as [|[] o] eqn:Ho.
    + unfold ret. simpl. unfold bind.
      erewrite (store_char_ok (length (mem st)) (replicate 16 NUL)).
      2:{ simpl. apply list_lookup_middle. reflexivity. }
      2:{ simpl. lia. }
      simpl. split; [discriminate|]. left.
      split; [reflexivity|]. split; [|reflexivity].
      split; [reflexivity|].
      eexists. split.
      { apply list_lookup_insert_eq. rewrite length_app. simpl. lia. }
      simpl. split_and!; try lia. reflexivity.
    + unfold ret. simpl. unfold bind.
      erewrite (store_char_ok (length (mem st)) (replicate 16 NUL)).
      2:{ simpl. apply list_lookup_middle. reflexivity. }
      2:{ simpl. lia. }
      simpl. split; [discriminate|]. left.
      split; [reflexivity|]. split; [|reflexivity].
      split; [reflexivity|].
      eexists. split.
      { apply list_lookup_insert_eq. rewrite length_app. simpl. lia. }
      simpl. split_and!; try lia. reflexivity.
    + unfold ret. simpl. unfold bind, store_char. simpl. eauto.
Qed.



(** X1.  On a string that already has its buffer (of a size that can be
    doubled within [int]), [_append_char] never writes outside the buffer and
    always returns: either 0, with exactly the one character added after the
    old contents, or, when [realloc] fails, -1 with [MemoryError] set and
    the string, its buffer and the whole heap as they were. *)
Theorem append_char_failure_keeps_string s c cs st :
  tmp_s s <> NULL -> tmp_inv st s cs -> 2 * tmp_allocated s < 2 ^ 31 ->
  exists r s' st',
    _append_char s c st = Done (r, s') st'
    /\ tmp_s s' <> NULL
    /\ ((r = 0 /\ tmp_inv st' s' (cs ++ [c]) /\ pyerr st' = pyerr st)
        \/ (r = -1 /\ s' = s /\ mem st' = mem st /\ tmp_inv st' s' cs
            /\ (exists o, oracle st = false :: o)
            /\ pyerr st'
               = Some (PyExc_MemoryError, "memory allocation failed"%string))).
Proof.
  intros Hnn Hinv _. pose proof (_append_char_cases s c cs st Hinv) as Hc.
  destruct (_append_char s c st) as [[r s'] st'| |].
  - exists r, s', st'. split; [reflexivity|].
    destruct Hc as (Hs' & [(-> & Hi & He)|(-> & -> & Hm & Ho & He)]).
    + split; auto.
    + split; auto. right. split_and!; auto.
      unfold tmp_inv in *. rewrite Hm. exact Hinv.
  - destruct Hc as [Hc _]. contradiction.
  - contradiction.
Qed.


End AllocationFailure.

(** ** Records: padding and field names *)

Lemma name_chars_colon_free p :
  (name_chars p).1 = forallb (fun c => negb (Ascii.eqb c ":")) p.
Proof.
  induction p as [|c p IH]; simpl; [reflexivity|].
  destruct (Ascii.eqb c ":"); simpl; [reflexivity|].
  destruct (name_chars p) as [ok r]. simpl in *. exact IH.
Qed.

Lemma name_chars_whole p :
  forallb (fun c => negb (Ascii.eqb c ":")) p = true -> name_chars p = (true, p).
Proof.
  induction p as [|c p IH]; simpl; [reflexivity|].
  destruct (Ascii.eqb c ":"); simpl; [discriminate|].
  intros Hp. rewrite (IH Hp). reflexivity.
Qed.

Lemma plain_scalar_chars d off :
  plain_scalar d = true -> format_chars d off = (0, scalar_code d, off).
Proof.
  unfold plain_scalar, scalar_code, PyDataType_HASFIELDS. intros Hp.
  apply andb_true_iff in Hp as [Hp Hc]. apply andb_true_iff in Hp as [Hs Hf].
  apply negb_true_iff in Hs. apply negb_true_iff in Hf.
  rewrite format_chars_eq, Hs.
  destruct (fields d); [discriminate|].
  destruct (scalar_chars d); [reflexivity|discriminate].
Qed.

Lemma fields_chars_laid_out fs : forall cursor,
  laid_out fs cursor = true ->
  fields_chars format_chars fs cursor
  = (0, layout_chars fs cursor ++ ["}"%char], layout_end fs cursor).
Proof.
  induction fs as [|[[name child] start] fs IH]; intros cursor Hl; simpl.
  - reflexivity.
  - simpl in Hl.
    apply andb_true_iff in Hl as [Hl Hrest].
    apply andb_true_iff in Hl as [Hl Hname].
    apply andb_true_iff in Hl as [Hle Hplain].
    apply Z.leb_le in Hle.
    replace (cursor + Z.of_nat (Z.to_nat (start - cursor)) + elsize child)
      with (start + elsize child) by lia.
    rewrite (plain_scalar_chars child _ Hplain).
    rewrite (name_chars_whole _ Hname).
    rewrite (IH _ Hrest).
    repeat (rewrite <- app_assoc; simpl). reflexivity.
Qed.

Lemma fields_chars_result child_chars fs : forall cursor,
  (fields_chars child_chars fs cursor).1.1
  = if forallb (fun f => colon_free f.1.1) fs then 0 else -1.
Proof.
  induction fs as [|[[name child] start] fs IH]; intros cursor; simpl.
  - reflexivity.
  - destruct (child_chars child _) as [[rc cs] off].
    unfold colon_free at 1. simpl. rewrite <- name_chars_colon_free.
    destruct (name_chars (list_ascii_of_string name)) as [[] ns]; simpl.
    + specialize (IH off).
      destruct (fields_chars child_chars fs off) as [[r rest] off'].
      exact IH.
    + reflexivity.
Qed.

Section Records.
Context `{Headers}.


(** X4.  For a record whose fields are scalars of listed types, named
    without [':'] and laid out one after the other without overlap, the
    translator (no allocation failing) returns 0, leaves the offset at the
    end of the last field, and writes [T{], then for each field as many [x]
    as there are bytes between the end of the previous field and the field's
    own start, the field's code and its name between colons, and [}]. *)
Theorem record_padding_fills_gaps d fs st :
  subarray d = false -> fields d = Some fs -> laid_out fs 0 = true ->
  oracle st = [] -> NDEBUG = true \/ asserts_hold d = true ->
  exists s' st',
    _buffer_format_string d (mk_tmp NULL 0 0) 0 st
    = Done (0, s', layout_end fs 0) st'
    /\ tmp_contents st' s'
       = Some ("T"%char :: "{"%char :: layout_chars fs 0 ++ ["}"%char]).
Proof.
  intros Hsub Hf Hl Ho Ha.
  assert (format_chars d 0
          = (0, "T"%char :: "{"%char :: layout_chars fs 0 ++ ["}"%char],
             layout_end fs 0)) as Ef.
  { rewrite format_chars_eq, Hsub, Hf, (fields_chars_laid_out fs 0 Hl).
    reflexivity. }
  destruct (translator_writes d st (mk_tmp NULL 0 0) [] 0 _ _ _ Ho
              eq_refl Ha Ef) as (s' & st' & E & _ & Hi).
  exists s', st'. split; [exact E|].
  apply tmp_inv_contents in Hi. exact Hi.
Qed.

(** X5.  The result of the translator on a record (not itself a sub-array,
    no allocation failing) is decided by the field names alone: 0 when no
    field name contains [':'] and -1 otherwise, whatever the descriptors of
    the fields are and whatever the calls on them returned. *)
Theorem record_result_decided_by_names d fs st :
  subarray d = false -> fields d = Some fs ->
  oracle st = [] -> NDEBUG = true \/ asserts_hold d = true ->
  exists s' off' st',
    _buffer_format_string d (mk_tmp NULL 0 0) 0 st
    = Done (if forallb (fun f => colon_free f.1.1) fs then 0 else -1,
            s', off') st'.
Proof.
  intros Hsub Hf Ho Ha.
  destruct (format_chars d 0) as [[r out] off'] eqn:Ef.
  destruct (translator_writes d st (mk_tmp NULL 0 0) [] 0 _ _ _ Ho
              eq_refl Ha Ef) as (s' & st' & E & _ & _).
  exists s', off', st'. rewrite E. do 2 f_equal. f_equal.
  rewrite format_chars_eq, Hsub, Hf in Ef.
  pose proof (fields_chars_result format_chars fs 0) as Hr.
  destruct (fields_chars format_chars fs 0) as [[r' cs] o'].
  injection Ef as <- _ _. exact Hr.
Qed.

End Records.

(** ** Every return of the exporter *)

Section ExporterReturns.
Context `{Headers}.

Lemma PyArray_ITEMSIZE_value self n st st' :
  PyArray_ITEMSIZE self st = Done n st' ->
  st' = st /\ exists d, descrs st !! descr self = Some d /\ n = elsize d.
Proof.
  unfold PyArray_ITEMSIZE, PyArray_DESCR. intros E.
  apply bind_Done in E as (d & st1 & Ed & E).
  apply get_descr_Done in Ed as [-> Hd]. unfold ret in E.
  injection E as <- <-. eauto.
Qed.

Lemma PyArray_NBYTES_value self n st st' :
  PyArray_NBYTES self st = Done n st' ->
  st' = st
  /\ exists d, descrs st !! descr self = Some d
               /\ n = elsize d * PyArray_SIZE self.
Proof.
  unfold PyArray_NBYTES. intros E.
  apply bind_Done in E as (sz & st1 & Ed & E).
  apply PyArray_ITEMSIZE_value in Ed as (-> & d & Hd & ->). unfold ret in E.
  injection E as <- <-. eauto.
Qed.

(** Inversion of a call of [array_getbuffer] with a view, whatever it
    returned. *)
Lemma array_getbuffer_inv obj view flags r ov st st' :
  array_getbuffer obj (Some view) flags st = Done (r, ov) st' ->
  exists self cache st1 v,
    arrays st !! obj = Some self
    /\ getbuffer_cache obj self st = Done cache st1
    /\ ov = Some v
    /\ ((r = -1
         /\ arrays st' = arrays st1
         /\ is_Some (pyerr st')
         /\ view_obj v = view_obj view
         /\ (forall msg, contiguity_error flags self = Some msg ->
             st' = set_pyerr (Some (PyExc_ValueError, msg)) st1
             /\ view_format v = NULL /\ view_shape v = NULL))
        \/ (r = 0
            /\ contiguity_error flags self = None
            /\ (exists d, descrs st !! descr self = Some d
                          /\ view_itemsize v = elsize d
                          /\ view_len v = elsize d * PyArray_SIZE self)
            /\ view_buf v = data self
            /\ view_readonly v = negb (PyArray_ISWRITEABLE self)
            /\ view_obj v = Some obj
            /\ view_suboffsets v = NULL /\ view_internal v = NULL
            /\ (has_flags flags PyBUF_STRIDED = true
                \/ PyArray_ISONESEGMENT self = true)
            /\ exists st2,
                 getbuffer_format self flags st1
                 = Done (Some (view_format v)) st2)).
Proof.
  unfold array_getbuffer, contiguity_error. intros E.
  apply bind_Done in E as (self & st0 & Eget & E).
  apply get_array_Done in Eget as [-> Hself].
  apply bind_Done in E as (cache & st1 & Ecache & E).
  exists self, cache, st1.
  destruct (has_flags flags PyBUF_C_CONTIGUOUS
            && negb (PyArray_CHKFLAGS self NPY_C_CONTIGUOUS)).
  { unfold bind, PyErr_SetString, ret in E. injection E as <- <- <-.
    eexists. split_and!; auto. left. simpl. split_and!; eauto.
    intros msg Hm. injection Hm as <-. auto. }
  destruct (has_flags flags PyBUF_F_CONTIGUOUS
            && negb (PyArray_CHKFLAGS self NPY_F_CONTIGUOUS)).
  { unfold bind, PyErr_SetString, ret in E. injection E as <- <- <-.
    eexists. split_and!; auto. left. simpl. split_and!; eauto.
    intros msg Hm. injection Hm as <-. auto. }
  destruct (has_flags flags PyBUF_ANY_CONTIGUOUS
            && negb (PyArray_ISONESEGMENT self)).
  { unfold bind, PyErr_SetString, ret in E. injection E as <- <- <-.
    eexists. split_and!; auto. left. simpl. split_and!; eauto.
    intros msg Hm. injection Hm as <-. auto. }
  pose proof (getbuffer_cache_Done _ _ _ _ _ Hself Ecache)
    as (Ha1 & Hd1 & _ & _ & _).
  apply bind_Done in E as (itemsize & st1a & Ei & E).
  apply PyArray_ITEMSIZE_value in Ei as (-> & d & Hd & ->).
  apply bind_Done in E as (len & st1b & El & E).
  apply PyArray_NBYTES_value in El as (-> & d' & Hd' & ->).
  rewrite Hd in Hd'. injection Hd' as <-. rewrite Hd1 in Hd.
  apply bind_Done in E as (f & st2 & Ef & E).
  pose proof (getbuffer_format_Done _ _ _ _ _ Ef) as (Ha2 & _ & Herr & _).
  destruct f as [f|].
  2:{ unfold ret in E. injection E as <- <- <-.
      eexists. split_and!; auto. left. simpl. split_and!; auto.
      discriminate. }
  destruct (has_flags flags PyBUF_STRIDED) eqn:Es.
  - apply bind_Done in E as ([shape strs] & st3 & Estr & E).
    apply bind_Done in E as (self3 & st3a & Eg & E).
    apply get_array_Done in Eg as [-> Hself3].
    apply bind_Done in E as (u & st4 & Eput & E). destruct u.
    unfold put_array in Eput. injection Eput as <-.
    unfold ret in E. injection E as <- <- <-.
    eexists. split_and!; auto. right. simpl. split_and!; eauto.
  - destruct (PyArray_ISONESEGMENT self) eqn:Eone.
    + apply bind_Done in E as (self3 & st3a & Eg & E).
      apply get_array_Done in Eg as [-> Hself3].
      apply bind_Done in E as (u & st4 & Eput & E). destruct u.
      unfold put_array in Eput. injection Eput as <-.
      unfold ret in E. injection E as <- <- <-.
      eexists. split_and!; auto. right. simpl. split_and!; eauto.
    + unfold bind, PyErr_SetString, ret in E. injection E as <- <- <-.
      eexists. split_and!; auto. left. simpl. split_and!; eauto.
      discriminate.
Qed.

(** X6.  A call of [array_getbuffer] with a view takes a reference on the
    array exactly when it returns 0: the array's reference count is then one
    higher and the view names the array as its owner; on every other return
    the result is -1, the count is as before and the view's owner is left
    alone.  No other array changes in either case. *)
Theorem reference_taken_exactly_on_success obj view flags r ov self st st' :
  arrays st !! obj = Some self ->
  array_getbuffer obj (Some view) flags st = Done (r, ov) st' ->
  exists a' v,
    arrays st' !! obj = Some a' /\ ov = Some v
    /\ ((r = 0 /\ ob_refcnt a' = ob_refcnt self + 1 /\ view_obj v = Some obj)
        \/ (r = -1 /\ ob_refcnt a' = ob_refcnt self
            /\ view_obj v = view_obj view))
    /\ (forall other, other <> obj -> arrays st' !! other = arrays st !! other).
Proof.
  intros Hself E.
  pose proof (lookup_lt_Some _ _ _ Hself) as Hlt.
  destruct (array_getbuffer_inv _ _ _ _ _ _ _ E)
    as (self' & cache & st1 & v & Hself' & Ecache & -> & Hcases).
  rewrite Hself in Hself'. injection Hself' as <-.
  apply getbuffer_cache_Done in Ecache as (Ha1 & _); auto.
  destruct Hcases as [(-> & Ha & _ & Hobj & _)|(-> & _ & _ & _ & _ & Hobj & _)].
  - exists (with_buffer_info cache self), v. rewrite Ha, Ha1.
    split_and!; auto.
    + apply list_lookup_insert_eq. exact Hlt.
    + intros other Hne. apply list_lookup_insert_ne. auto.
  - destruct (array_getbuffer_stores _ _ _ _ _ _ _ Hself E)
      as ((cache' & ->) & _).
    exists (Py_INCREF (with_buffer_info cache' self)), v.
    split_and!; auto.
    + apply list_lookup_insert_eq. exact Hlt.
    + intros other Hne. apply list_lookup_insert_ne. auto.
Qed.



End ExporterReturns.

(** ** The first export of an array runs to its end *)

Lemma store_word_ok b o ws k v st :
  mem st !! b = Some (Words ws) -> 0 <= o + k < Z.of_nat (length ws) ->
  store_word (Some (b, o)) k v st
  = Done tt (set_mem (<[b := Words (<[Z.to_nat (o + k) := v]> ws)]> (mem st)) st).
Proof.
  unfold store_word. intros Hb Hk. rewrite Hb.
  destruct (0 <=? o + k) eqn:E1; [|apply Z.leb_gt in E1; lia].
  destruct (o + k <? Z.of_nat (length ws)) eqn:E2; [|apply Z.ltb_ge in E2; lia].
  reflexivity.
Qed.

Lemma array_elem_ok a k st :
  0 <= k < Z.of_nat (length a) -> exists v, array_elem a k st = Done v st.
Proof.
  intros Hk. unfold array_elem, elem.
  destruct (0 <=? k) eqn:E1; [|apply Z.leb_gt in E1; lia].
  destruct (lookup_lt_is_Some_2 a (Z.to_nat k)) as [v Hv]; [lia|].
  rewrite Hv. eauto.
Qed.

Lemma snapshot_loop_ok c self b N :
  cache_shape c = Some (b, 0) -> cache_strides c = Some (b, N) ->
  N <= Z.of_nat (length (dimensions self)) ->
  N <= Z.of_nat (length (strides self)) ->
  forall n k st ws,
    0 <= k -> k + Z.of_nat n <= N ->
    mem st !! b = Some (Words ws) -> Z.of_nat (length ws) = 2 * N ->
    exists st', snapshot_loop c self k n st = Done tt st'.
Proof.
  intros Hsh Hst Hd Hs. induction n as [|n IH]; simpl; intros k st ws Hk HN Hb Hl.
  - unfold ret. eauto.
  - unfold PyArray_DIMS, PyArray_STRIDES. rewrite Hsh, Hst.
    destruct (array_elem_ok (dimensions self) k st) as [d Ed]; [lia|].
    rewrite (bind_step _ _ _ _ _ Ed).
    rewrite (bind_step _ _ _ _ _ (store_word_ok b 0 ws k d st Hb ltac:(lia))).
    match goal with
    | |- context [bind (array_elem _ _) _ ?s] =>
        destruct (array_elem_ok (strides self) k s) as [t Et]; [lia|];
        rewrite (bind_step _ _ _ _ _ Et)
    end.
    erewrite bind_step.
    2:{ apply store_word_ok with (ws := <[Z.to_nat (0 + k) := d]> ws).
        - simpl. apply list_lookup_insert_eq. eapply lookup_lt_Some; eauto.
        - rewrite length_insert. lia. }
    eapply IH; [lia|lia| |].
    + simpl. apply list_lookup_insert_eq. rewrite length_insert.
      eapply lookup_lt_Some; eauto.
    + rewrite !length_insert. exact Hl.
Qed.




Section FirstExport.
Context `{Headers}.



End FirstExport.

Section FirstExportResults.
Context `{Headers}.



End FirstExportResults.

(** ** The errors of the translator *)

Section TranslatorErrors.
Context `{Headers}.







End TranslatorErrors.

(** ** Exports that are refused *)

Section Refusals.
Context `{Headers}.

(** X12.  When the translator fails on the descriptor (no allocation
    failing), an export that asks for the format returns -1 with an error
    set, hands out no format string, stores nothing on the descriptor and
    takes no reference. *)
Theorem failed_translation_caches_nothing obj self d view flags st :
  arrays st !! obj = Some self -> descrs st !! descr self = Some d ->
  oracle st = [] -> NDEBUG = true \/ asserts_hold d = true ->
  contiguity_error flags self = None ->
  has_flags flags PyBUF_FORMAT = true -> buffer_format d = NULL ->
  (format_chars d 0).1.1 <> 0 ->
  exists v st' a',
    array_getbuffer obj (Some view) flags st = Done (-1, Some v) st'
    /\ is_Some (pyerr st')
    /\ view_format v = NULL
    /\ descrs st' = descrs st
    /\ arrays st' !! obj = Some a' /\ ob_refcnt a' = ob_refcnt self.
Proof.
  intros Hself Hd Ho Ha Hcont Hf Hbf Hfail.
  pose proof (lookup_lt_Some _ _ _ Hself) as Hobj.
  unfold array_getbuffer.
  assert (get_array obj st = Done self st) as Eg
    by (unfold get_array; rewrite Hself; reflexivity).
  rewrite (bind_step _ _ _ _ _ Eg).
  destruct (getbuffer_cache_ok obj self st Ho) as (cache & st1 & Ec & Ho1 & Hd1).
  rewrite (bind_step _ _ _ _ _ Ec).
  apply getbuffer_cache_Done in Ec as (Ha1 & _); auto.
  unfold contiguity_error in Hcont.
  destruct (has_flags flags PyBUF_C_CONTIGUOUS
            && negb (PyArray_CHKFLAGS self NPY_C_CONTIGUOUS)); [discriminate|].
  destruct (has_flags flags PyBUF_F_CONTIGUOUS
            && negb (PyArray_CHKFLAGS self NPY_F_CONTIGUOUS)); [discriminate|].
  destruct (has_flags flags PyBUF_ANY_CONTIGUOUS
            && negb (PyArray_ISONESEGMENT self)); [discriminate|].
  assert (PyArray_ITEMSIZE self st1 = Done (elsize d) st1) as Ei.
  { unfold PyArray_ITEMSIZE, PyArray_DESCR, bind, get_descr.
    rewrite Hd1, Hd. reflexivity. }
  rewrite (bind_step _ _ _ _ _ Ei).
  assert (PyArray_NBYTES self st1 = Done (elsize d * PyArray_SIZE self) st1) as En.
  { unfold PyArray_NBYTES. rewrite (bind_step _ _ _ _ _ Ei). reflexivity. }
  rewrite (bind_step _ _ _ _ _ En).
  assert (exists st2, getbuffer_format self flags st1 = Done None st2
                      /\ descrs st2 = descrs st1) as (st2 & Ef & Hd2).
  { unfold getbuffer_format, PyArray_DESCR. rewrite Hf.
    assert (get_descr (descr self) st1 = Done d st1) as Egd
      by (unfold get_descr; rewrite Hd1, Hd; reflexivity).
    rewrite (bind_step _ _ _ _ _ Egd). rewrite Hbf. simpl.
    destruct (format_chars d 0) as [[r out] off'] eqn:Efc. simpl in Hfail.
    destruct (translator_writes d st1 (mk_tmp NULL 0 0) [] 0 r out off' Ho1
                eq_refl Ha Efc) as (s' & st2 & E & _ & _).
    rewrite (bind_step _ _ _ _ _ E). simpl.
    destruct (Z.eqb_spec r 0) as [|_]; [contradiction|]. simpl.
    unfold ret. exists st2. split; [reflexivity|].
    apply _buffer_format_string_frame
      with (n0 := length (mem st1)) (st0 := st1) in E as (F & _);
      [|apply frame_refl; auto|exact I].
    apply F. }
  rewrite (bind_step _ _ _ _ _ Ef).
  pose proof (getbuffer_format_Done _ _ _ _ _ Ef) as (Ha2 & _ & Herr & _).
  unfold ret. eexists _, _, (with_buffer_info cache self).
  split; [reflexivity|].
  simpl. split_and!; auto.
  - congruence.
  - rewrite Ha2, Ha1. apply list_lookup_insert_eq. exact Hobj.
Qed.

(** X13.  A request that demands a contiguity the array lacks is refused
    before anything else is done: the call returns -1 with the [ValueError]
    of the first demand that fails (C, then Fortran, then either), the view
    gets neither format nor shape, no descriptor is touched and no reference
    is taken.  (The cache struct being there or its allocation succeeding.) *)
Theorem contiguity_checked_first obj self view flags msg st :
  arrays st !! obj = Some self ->
  buffer_info self <> NULL \/ oracle st = [] ->
  contiguity_error flags self = Some msg ->
  exists v st' a',
    array_getbuffer obj (Some view) flags st = Done (-1, Some v) st'
    /\ pyerr st' = Some (PyExc_ValueError, msg)
    /\ view_format v = NULL /\ view_shape v = NULL
    /\ descrs st' = descrs st
    /\ arrays st' !! obj = Some a' /\ ob_refcnt a' = ob_refcnt self.
Proof.
  intros Hself Hcache Hmsg.
  pose proof (lookup_lt_Some _ _ _ Hself) as Hobj.
  assert (exists cache st1, getbuffer_cache obj self st = Done cache st1)
    as (cache & st1 & Ec).
  { destruct Hcache as [Hnn|Ho].
    - unfold getbuffer_cache. destruct (buffer_info self); [|contradiction].
      unfold ret. simpl. eauto.
    - destruct (getbuffer_cache_ok obj self st Ho) as (c & s1 & E & _). eauto. }
  pose proof (getbuffer_cache_Done _ _ _ _ _ Hself Ec) as (Ha1 & Hd1 & _).
  assert (exists v st',
            array_getbuffer obj (Some view) flags st = Done (-1, Some v) st')
    as (v & st' & E).
  { unfold array_getbuffer.
    assert (get_array obj st = Done self st) as Eg
      by (unfold get_array; rewrite Hself; reflexivity).
    rewrite (bind_step _ _ _ _ _ Eg), (bind_step _ _ _ _ _ Ec).
    unfold contiguity_error in Hmsg.
    destruct (has_flags flags PyBUF_C_CONTIGUOUS
              && negb (PyArray_CHKFLAGS self NPY_C_CONTIGUOUS));
      [unfold bind, PyErr_SetString, ret; eauto|].
    destruct (has_flags flags PyBUF_F_CONTIGUOUS
              && negb (PyArray_CHKFLAGS self NPY_F_CONTIGUOUS));
      [unfold bind, PyErr_SetString, ret; eauto|].
    destruct (has_flags flags PyBUF_ANY_CONTIGUOUS
              && negb (PyArray_ISONESEGMENT self));
      [unfold bind, PyErr_SetString, ret; eauto|discriminate]. }
  exists v, st', (with_buffer_info cache self). split; [exact E|].
  destruct (array_getbuffer_inv _ _ _ _ _ _ _ E)
    as (self' & cache' & st1' & v' & Hself' & Ec' & Hv & Hcases).
  rewrite Hself in Hself'. injection Hself' as <-.
  rewrite Ec in Ec'. injection Ec' as <- <-. injection Hv as <-.
  destruct Hcases as [(_ & _ & _ & _ & Hm)|(? & _)]; [|discriminate].
  destruct (Hm msg Hmsg) as (-> & Hvf & Hvs). simpl.
  split_and!; auto.
  rewrite Ha1. apply list_lookup_insert_eq. exact Hobj.
Qed.

End Refusals.

(** ** Releasing the cache *)

Section Release.
Context `{Headers}.

(** The first call of [_array_dealloc_buffer_info] on a live cache. *)
Lemma _array_dealloc_buffer_info_runs obj self cb c st :
  arrays st !! obj = Some self -> buffer_info self = Some (cb, 0) ->
  mem st !! cb = Some (Cache (Some c)) ->
  (cache_shape c = NULL
   \/ exists b ws, cache_shape c = Some (b, 0) /\ mem st !! b = Some (Words ws)) ->
  exists st',
    _array_dealloc_buffer_info obj st = Done tt st'
    /\ arrays st' = <[obj := with_buffer_info NULL self]> (arrays st)
    /\ is_freed st' (Some (cb, 0)) = true
    /\ (cache_shape c <> NULL -> is_freed st' (cache_shape c) = true)
    /\ (forall b, b <> cb -> (forall o, cache_shape c <> Some (b, o)) ->
        mem st' !! b = mem st !! b)
    /\ descrs st' = descrs st /\ pyerr st' = pyerr st.
Proof.
  intros Hself Hbi Hcb Hshape.
  pose proof (lookup_lt_Some _ _ _ Hself) as Hobj.
  pose proof (lookup_lt_Some _ _ _ Hcb) as Hcblt.
  unfold _array_dealloc_buffer_info.
  assert (get_array obj st = Done self st) as Eg
    by (unfold get_array; rewrite Hself; reflexivity).
  rewrite (bind_step _ _ _ _ _ Eg). rewrite Hbi. simpl.
  rewrite (bind_step _ _ _ _ _ (load_cache_ok cb c st Hcb)).
  destruct Hshape as [Hnull|(b & ws & Hsh & Hb)].
  - rewrite Hnull. simpl. unfold bind, ret, free, put_array. rewrite Hcb. simpl.
    eexists. split; [reflexivity|]. simpl. split_and!; auto.
    + rewrite list_lookup_insert_eq by exact Hcblt. reflexivity.
    + intros b Hne _. apply list_lookup_insert_ne. auto.
  - assert (b <> cb) as Hne by (intros ->; rewrite Hcb in Hb; discriminate).
    pose proof (lookup_lt_Some _ _ _ Hb) as Hblt.
    rewrite Hsh. simpl. unfold bind, ret, free, put_array. rewrite Hb. simpl.
    rewrite list_lookup_insert_ne by auto. rewrite Hcb. simpl.
    eexists. split; [reflexivity|]. simpl. split_and!; auto.
    + rewrite list_lookup_insert_eq; [reflexivity|].
      rewrite length_insert. exact Hcblt.
    + intros _. rewrite list_lookup_insert_ne by auto.
      rewrite list_lookup_insert_eq by exact Hblt. reflexivity.
    + intros b' Hne' Hns. rewrite list_lookup_insert_ne by auto.
      apply list_lookup_insert_ne. intros ->. apply (Hns 0). reflexivity.
Qed.

(** X14.  [_array_dealloc_buffer_info] on an array whose cache struct is
    live and whose snapshot, if there is one, is a live block: the call
    returns, the snapshot and the cache struct are freed, the array's cache
    pointer is NULL afterwards, every other block is as before, and a second
    call changes nothing (nothing is freed twice). *)
Theorem dealloc_releases_cache_once obj self cb c st :
  arrays st !! obj = Some self -> buffer_info self = Some (cb, 0) ->
  mem st !! cb = Some (Cache (Some c)) ->
  (cache_shape c = NULL
   \/ exists b ws, cache_shape c = Some (b, 0) /\ mem st !! b = Some (Words ws)) ->
  exists st',
    _array_dealloc_buffer_info obj st = Done tt st'
    /\ arrays st' !! obj = Some (with_buffer_info NULL self)
    /\ is_freed st' (Some (cb, 0)) = true
    /\ (cache_shape c <> NULL -> is_freed st' (cache_shape c) = true)
    /\ (forall b, b <> cb -> (forall o, cache_shape c <> Some (b, o)) ->
        mem st' !! b = mem st !! b)
    /\ _array_dealloc_buffer_info obj st' = Done tt st'.
Proof.
  intros Hself Hbi Hcb Hshape.
  pose proof (lookup_lt_Some _ _ _ Hself) as Hobj.
  destruct (_array_dealloc_buffer_info_runs obj self cb c st Hself Hbi Hcb Hshape)
    as (st' & E & Ha & Hf1 & Hf2 & Hm & _).
  assert (arrays st' !! obj = Some (with_buffer_info NULL self)) as Hs'.
  { rewrite Ha. apply list_lookup_insert_eq. exact Hobj. }
  exists st'. split_and!; auto.
  unfold _array_dealloc_buffer_info, bind, get_array. rewrite Hs'. reflexivity.
Qed.

End Release.

(** ** The old accessors *)

Section OldAccessors.
Context `{Headers}.


End OldAccessors.

(** ** What an export leaves behind *)

Lemma getbuffer_cache_nonnull obj self cache st st' :
  getbuffer_cache obj self st = Done cache st' -> cache <> NULL.
Proof.
  unfold getbuffer_cache. destruct (buffer_info self) as [p|] eqn:Eb; simpl.
  - unfold ret. intros E. injection E as <- _. discriminate.
  - intros E. apply bind_Done in E as (p & st1 & _ & E).
    apply bind_Done in E as (u & st2 & Es & E).
    apply store_cache_Done in Es as (cb & old & -> & _).
    apply bind_Done in E as (u2 & st3 & _ & E).
    unfold ret in E. injection E as <- _. discriminate.
Qed.

Section Leftovers.
Context `{Headers}.

(** The descriptors after the format part of an export. *)
Lemma getbuffer_format_descrs self flags f st st' :
  getbuffer_format self flags st = Done f st' ->
  descrs st' = descrs st
  \/ exists d p,
       descrs st !! descr self = Some d /\ buffer_format d = NULL
       /\ p <> NULL /\ f = Some p
       /\ descrs st' = <[descr self := with_buffer_format p d]> (descrs st).
Proof.
  unfold getbuffer_format, PyArray_DESCR, get_descr. intros E.
  destruct (has_flags flags PyBUF_FORMAT); cbv iota in E.
  2:{ unfold ret in E. injection E as _ <-. auto. }
  unfold bind at 1 in E.
  destruct (descrs st !! descr self) as [d|] eqn:Ed; [|discriminate].
  destruct (is_null (buffer_format d)) eqn:En; cbv iota in E.
  2:{ unfold ret in E. injection E as _ <-. auto. }
  apply bind_Done in E as ([[r fmt] off] & st1 & Eenc & E).
  apply _buffer_format_string_frame
    with (n0 := length (mem st)) (st0 := st) in Eenc as (F1 & O1 & _);
    [|apply frame_refl; auto|exact I].
  destruct (negb (r =? 0)); cbv iota in E.
  { unfold ret in E. injection E as _ <-. left. apply F1. }
  apply bind_Done in E as ([r2 fmt2] & st2 & Eapp & E).
  pose proof (_append_char_nonnull _ _ _ _ _ _ Eapp) as Hnn.
  apply _append_char_frame
    with (n0 := length (mem st)) (st0 := st) in Eapp as (F2 & O2 & _); auto.
  apply bind_Done in E as (u & st3 & Eput & E). destruct u.
  unfold ret in E. injection E as <- <-.
  unfold put_descr in Eput. injection Eput as <-. simpl.
  right. exists d, (tmp_s fmt2). split_and!; auto.
  - destruct (buffer_format d); [discriminate En|reflexivity].
  - rewrite (frame_descrs _ _ _ F2). reflexivity.
Qed.

(** The stores after a call of [array_getbuffer] with a view. *)
Lemma array_getbuffer_leaves obj view flags r ov self st st' :
  arrays st !! obj = Some self ->
  array_getbuffer obj (Some view) flags st = Done (r, ov) st' ->
  exists cache st1 st2,
    getbuffer_cache obj self st = Done cache st1
    /\ arrays st' !! obj
       = Some (if r =? 0 then Py_INCREF (with_buffer_info cache self)
               else with_buffer_info cache self)
    /\ descrs st1 = descrs st
    /\ descrs st' = descrs st2
    /\ (st2 = st1 \/ exists f, getbuffer_format self flags st1 = Done f st2).
Proof.
  intros Hself E.
  pose proof (lookup_lt_Some _ _ _ Hself) as Hobj.
  unfold array_getbuffer in E.
  apply bind_Done in E as (self' & st0 & Eget & E).
  apply get_array_Done in Eget as [-> Hself'].
  rewrite Hself in Hself'. injection Hself' as <-.
  apply bind_Done in E as (cache & st1 & Ecache & E).
  pose proof (getbuffer_cache_Done _ _ _ _ _ Hself Ecache)
    as (Ha1 & Hd1 & _ & _ & _).
  assert (arrays st1 !! obj = Some (with_buffer_info cache self)) as Hs1.
  { rewrite Ha1. apply list_lookup_insert_eq. exact Hobj. }
  exists cache, st1.
  destruct (has_flags flags PyBUF_C_CONTIGUOUS
            && negb (PyArray_CHKFLAGS self NPY_C_CONTIGUOUS)).
  { unfold bind, PyErr_SetString, ret in E. injection E as <- <- <-.
    exists st1. simpl. split_and!; auto. }
  destruct (has_flags flags PyBUF_F_CONTIGUOUS
            && negb (PyArray_CHKFLAGS self NPY_F_CONTIGUOUS)).
  { unfold bind, PyErr_SetString, ret in E. injection E as <- <- <-.
    exists st1. simpl. split_and!; auto. }
  destruct (has_flags flags PyBUF_ANY_CONTIGUOUS
            && negb (PyArray_ISONESEGMENT self)).
  { unfold bind, PyErr_SetString, ret in E. injection E as <- <- <-.
    exists st1. simpl. split_and!; auto. }
  apply bind_Done in E as (itemsize & st1a & Ei & E).
  apply PyArray_ITEMSIZE_Done in Ei as ->.
  apply bind_Done in E as (len & st1b & El & E).
  apply PyArray_NBYTES_Done in El as ->.
  apply bind_Done in E as (f & st2 & Ef & E).
  pose proof (getbuffer_format_Done _ _ _ _ _ Ef) as (Ha2 & _).
  exists st2.
  destruct f as [f|].
  2:{ unfold ret in E. injection E as <- <- <-. simpl.
      split_and!; eauto. congruence. }
  destruct (has_flags flags PyBUF_STRIDED).
  - apply bind_Done in E as ([shape strs] & st3 & Estr & E).
    apply getbuffer_strided_objects in Estr as (Ha3 & Hd3 & _).
    apply bind_Done in E as (self3 & st3a & Eg & E).
    apply get_array_Done in Eg as [-> Hself3].
    rewrite Ha3, Ha2, Hs1 in Hself3. injection Hself3 as <-.
    apply bind_Done in E as (u & st4 & Eput & E). destruct u.
    unfold put_array in Eput. injection Eput as <-.
    unfold ret in E. injection E as <- <- <-. simpl.
    split_and!; eauto.
    apply list_lookup_insert_eq. rewrite Ha3, Ha2, Ha1, length_insert.
    exact Hobj.
  - destruct (PyArray_ISONESEGMENT self).
    + apply bind_Done in E as (self3 & st3a & Eg & E).
      apply get_array_Done in Eg as [-> Hself3].
      rewrite Ha2, Hs1 in Hself3. injection Hself3 as <-.
      apply bind_Done in E as (u & st4 & Eput & E). destruct u.
      unfold put_array in Eput. injection Eput as <-.
      unfold ret in E. injection E as <- <- <-. simpl.
      split_and!; eauto.
      apply list_lookup_insert_eq. rewrite Ha2, Ha1, length_insert.
      exact Hobj.
    + unfold bind, PyErr_SetString, ret in E. injection E as <- <- <-. simpl.
      split_and!; eauto. congruence.
Qed.

(** X16.  The cache struct of an array is made once: after any call of
    [array_getbuffer] with a view that returns, whatever it returns, the
    array points to a cache struct; an array that pointed to one before
    still points to the same, and the next call finds it without allocating
    or changing anything. *)
Theorem cache_struct_made_once obj view flags r ov self st st' :
  arrays st !! obj = Some self ->
  array_getbuffer obj (Some view) flags st = Done (r, ov) st' ->
  exists a',
    arrays st' !! obj = Some a'
    /\ buffer_info a' <> NULL
    /\ (buffer_info self <> NULL -> buffer_info a' = buffer_info self)
    /\ getbuffer_cache obj a' st' = Done (buffer_info a') st'.
Proof.
  intros Hself E.
  destruct (array_getbuffer_leaves _ _ _ _ _ _ _ _ Hself E)
    as (cache & st1 & st2 & Ec & Ha' & _).
  pose proof (getbuffer_cache_nonnull _ _ _ _ _ Ec) as Hnn.
  apply getbuffer_cache_Done in Ec as (_ & _ & _ & _ & Hsame); auto.
  eexists. split; [exact Ha'|].
  assert (buffer_info (if r =? 0 then Py_INCREF (with_buffer_info cache self)
                       else with_buffer_info cache self) = cache) as Hbi
    by (destruct (r =? 0); reflexivity).
  rewrite Hbi. split_and!; auto.
  - intros Hs. destruct (Hsame Hs) as [-> _]. reflexivity.
  - unfold getbuffer_cache. rewrite Hbi.
    destruct cache; [reflexivity|contradiction].
Qed.

(** X17.  A call of [array_getbuffer] with a view changes no descriptor
    other than the array's own, and of that one only the format pointer: a
    pointer already there stays, a NULL one may become the new string.  Type
    number, byte order, size and fields are never touched. *)
Theorem export_changes_only_format_slot obj view flags r ov self d st st' :
  arrays st !! obj = Some self -> descrs st !! descr self = Some d ->
  array_getbuffer obj (Some view) flags st = Done (r, ov) st' ->
  (exists p, descrs st' !! descr self = Some (with_buffer_format p d)
             /\ (buffer_format d <> NULL -> p = buffer_format d))
  /\ (forall i, i <> descr self -> descrs st' !! i = descrs st !! i).
Proof.
  intros Hself Hd E.
  pose proof (lookup_lt_Some _ _ _ Hd) as Hdlt.
  assert (with_buffer_format (buffer_format d) d = d) as Hid
    by (destruct d; reflexivity).
  destruct (array_getbuffer_leaves _ _ _ _ _ _ _ _ Hself E)
    as (cache & st1 & st2 & _ & _ & Hd1 & Hd' & Hfmt).
  assert (descrs st2 = descrs st
          \/ exists p, buffer_format d = NULL
                       /\ descrs st2 = <[descr self := with_buffer_format p d]>
                                         (descrs st)) as Hcases.
  { destruct Hfmt as [->|(f & Ef)]; [auto|].
    apply getbuffer_format_descrs in Ef
      as [Hsame|(d0 & p & Hd0 & Hnull & _ & _ & Hnew)].
    - left. congruence.
    - right. rewrite Hd1 in Hd0, Hnew. rewrite Hd in Hd0. injection Hd0 as <-.
      eauto. }
  rewrite Hd'. destruct Hcases as [->|(p & Hnull & ->)].
  - split; [|auto]. exists (buffer_format d). rewrite Hid. auto.
  - split.
    + exists p. split.
      * apply list_lookup_insert_eq. exact Hdlt.
      * intros Hnn. contradiction.
    + intros i Hi. apply list_lookup_insert_ne. auto.
Qed.


End Leftovers.

(** ** The translator under any allocator *)

Section AnyAllocator.
Context `{Headers}.












End AnyAllocator.

(** ** When the snapshot is kept *)



Section SnapshotKept.
Context `{Headers}.


End SnapshotKept.

(** ** The cache stays well formed *)

Lemma cache_ok_extends m m' cb :
  mem_extends m m' -> cache_ok m cb -> cache_ok m' cb.
Proof.
  intros Hext (c & Hcb & Hnd & Hc). exists c. split_and!; auto.
  destruct Hc as [?|(b & ws & ? & ? & Hb & ?)]; [auto|].
  right. exists b, ws. split_and!; auto.
Qed.

Lemma load_word_ok b o ws k st :
  mem st !! b = Some (Words ws) -> 0 <= o + k < Z.of_nat (length ws) ->
  exists v, load_word (Some (b, o)) k st = Done v st.
Proof.
  intros Hb Hk. unfold load_word, read_word. rewrite Hb.
  destruct (0 <=? o + k) eqn:E1; [|apply Z.leb_gt in E1; lia].
  destruct (lookup_lt_is_Some_2 ws (Z.to_nat (o + k))) as [v Hv]; [lia|].
  rewrite Hv. eauto.
Qed.

Lemma shape_changed_loop_ok c self b ws st :
  cache_shape c = Some (b, 0) -> cache_strides c = Some (b, cache_nd c) ->
  mem st !! b = Some (Words ws) -> Z.of_nat (length ws) = 2 * cache_nd c ->
  cache_nd c <= Z.of_nat (length (dimensions self)) ->
  cache_nd c <= Z.of_nat (length (strides self)) ->
  forall n k,
    0 <= k -> k + Z.of_nat n <= cache_nd c ->
    exists r, shape_changed_loop c self k n st = Done r st.
Proof.
  intros Hsh Hst Hb Hl Hd Hs.
  induction n as [|n IH]; simpl; intros k Hk HN.
  - unfold ret. eauto.
  - unfold PyArray_DIMS, PyArray_STRIDES. rewrite Hsh, Hst.
    destruct (load_word_ok b 0 ws k st Hb ltac:(lia)) as [v1 E1].
    rewrite (bind_step _ _ _ _ _ E1).
    destruct (array_elem_ok (dimensions self) k st ltac:(lia)) as [d Ed].
    rewrite (bind_step _ _ _ _ _ Ed).
    destruct (negb (v1 =? d)); [unfold ret; eauto|].
    destruct (load_word_ok b (cache_nd c) ws k st Hb ltac:(lia)) as [v2 E2].
    rewrite (bind_step _ _ _ _ _ E2).
    destruct (array_elem_ok (strides self) k st ltac:(lia)) as [t Et].
    rewrite (bind_step _ _ _ _ _ Et).
    destruct (negb (v2 =? t)); [unfold ret; eauto|].
    apply IH; lia.
Qed.

(** The snapshot replaced in a well-formed cache. *)
Lemma replace_snapshot_keeps self cb c st :
  mem st !! cb = Some (Cache (Some c)) ->
  (cache_shape c = NULL
   \/ exists b ws, cache_shape c = Some (b, 0) /\ mem st !! b = Some (Words ws)) ->
  oracle st = [] -> array_well_formed self ->
  exists r st',
    replace_snapshot self (Some (cb, 0)) c st = Done r st'
    /\ cache_ok (mem st') cb
    /\ arrays st' = arrays st /\ descrs st' = descrs st /\ oracle st' = []
    /\ (forall b cs, mem st !! b = Some (Chars cs) ->
        mem st' !! b = Some (Chars cs)).
Proof.
  intros Hcb Hshape Ho (Hnd & Hdims & Hstrs).
  assert (exists st0,
            (if negb (is_null (cache_shape c)) then free (cache_shape c)
             else ret tt) st = Done tt st0
            /\ exists old, mem st0 !! cb = Some (Cache old)
            /\ oracle st0 = [] /\ arrays st0 = arrays st
            /\ descrs st0 = descrs st
            /\ (forall b cs, mem st !! b = Some (Chars cs) ->
                mem st0 !! b = Some (Chars cs)))
    as (st0 & Efree & old & Hcb0 & Ho0 & Ha0 & Hd0 & Hch0).
  { destruct Hshape as [->|(b & ws & -> & Hb)]; simpl.
    - exists st. unfold ret. split; [reflexivity|]. eauto 10.
    - assert (b <> cb) as Hne by (intros ->; rewrite Hcb in Hb; discriminate).
      unfold free. rewrite Hb. simpl. eexists. split; [reflexivity|].
      simpl. exists (Some c). split_and!; auto.
      + rewrite list_lookup_insert_ne by auto. exact Hcb.
      + intros b' cs Hb'. rewrite list_lookup_insert_ne; [exact Hb'|].
        intros ->. rewrite Hb in Hb'. discriminate. }
  unfold replace_snapshot. rewrite (bind_step _ _ _ _ _ Efree).
  unfold PyArray_NDIM.
  rewrite (bind_step _ _ _ _ _ (malloc_ok _ _ Ho0)). simpl.
  pose proof (lookup_lt_Some _ _ _ Hcb0) as Hcblt.
  set (zeros := replicate (Z.to_nat (nd self * 2)) 0).
  set (c' := mk_buffer_data (cache_format c) (nd self)
               (Some (length (mem st0), 0 + nd self))
               (Some (length (mem st0), 0))).
  assert (store_cache (Some (cb, 0)) c' (set_mem (mem st0 ++ [Words zeros]) st0)
          = Done tt (set_mem (<[cb := Cache (Some c')]> (mem st0 ++ [Words zeros]))
                       (set_mem (mem st0 ++ [Words zeros]) st0))) as Es.
  { unfold store_cache. simpl. rewrite lookup_app_l by exact Hcblt.
    rewrite Hcb0. reflexivity. }
  rewrite (bind_step _ _ _ _ _ Es).
  match goal with
  | |- context [bind (snapshot_loop ?c0 self 0 ?n) _ ?s] =>
      assert (mem s !! length (mem st0) = Some (Words zeros)) as Hnew;
      [|destruct (snapshot_loop_ok c0 self (length (mem st0)) (nd self)
                    eq_refl eq_refl Hdims Hstrs n 0 s zeros
                    ltac:(lia) ltac:(lia) Hnew) as [st' El]]
  end.
  { simpl. rewrite list_lookup_insert_ne by lia.
    apply list_lookup_middle. reflexivity. }
  { unfold zeros. rewrite length_replicate. lia. }
  rewrite (bind_step _ _ _ _ _ El).
  pose proof El as El'.
  eapply (snapshot_loop_fills _ self (length (mem st0)) (nd self)) in El';
    [ | reflexivity | reflexivity | lia | lia | exact Hnew ].
  destruct El' as (ws' & -> & Hlen & _ & _).
  unfold ret. eexists _, _. split; [reflexivity|]. simpl.
  split_and!; auto.
  - exists c'. split_and!; auto.
    + rewrite list_lookup_insert_ne by lia.
      apply list_lookup_insert_eq. rewrite length_app. lia.
    + right. exists (length (mem st0)), ws'. unfold c'. simpl.
      replace (0 + nd self) with (nd self) by lia. split_and!; auto.
      * apply list_lookup_insert_eq. rewrite length_insert, length_app.
        simpl. lia.
      * rewrite Hlen. unfold zeros. rewrite length_replicate. lia.
  - intros b cs Hb. apply Hch0 in Hb.
    pose proof (lookup_lt_Some _ _ _ Hb) as Hblt.
    rewrite list_lookup_insert_ne by lia.
    rewrite list_lookup_insert_ne
      by (intros ->; rewrite Hcb0 in Hb; discriminate).
    rewrite lookup_app_l by lia. exact Hb.
Qed.

(** The strided part of an export on a well-formed cache. *)
Lemma getbuffer_strided_keeps self cb st :
  cache_ok (mem st) cb -> oracle st = [] -> array_well_formed self ->
  exists r st',
    getbuffer_strided self (Some (cb, 0)) st = Done r st'
    /\ cache_ok (mem st') cb
    /\ arrays st' = arrays st /\ descrs st' = descrs st /\ oracle st' = []
    /\ (forall b cs, mem st !! b = Some (Chars cs) ->
        mem st' !! b = Some (Chars cs)).
Proof.
  intros (c & Hcb & Hcnd & Hc) Ho Hwf.
  pose proof Hwf as (Hnd & Hdims & Hstrs).
  unfold getbuffer_strided.
  rewrite (bind_step _ _ _ _ _ (load_cache_ok cb c st Hcb)).
  assert (exists ch,
            (if negb (cache_nd c =? PyArray_NDIM self) then ret true
             else shape_changed_loop c self 0 (Z.to_nat (PyArray_NDIM self)))
              st = Done ch st) as (ch & Ech).
  { unfold PyArray_NDIM.
    destruct (Z.eqb_spec (cache_nd c) (nd self)) as [Heq|]; simpl;
      [|unfold ret; eauto].
    destruct Hc as [(_ & _ & Hz)|(b & ws & Hsh & Hst & Hb & Hl)].
    - rewrite <- Heq, Hz. simpl. unfold ret. eauto.
    - apply (shape_changed_loop_ok c self b ws st); auto; lia. }
  rewrite (bind_step _ _ _ _ _ Ech).
  destruct (is_null (cache_strides c) || ch).
  - apply replace_snapshot_keeps; auto.
    destruct Hc as [(? & _)|(b & ws & ? & _ & ? & _)]; eauto.
  - unfold ret. eexists _, _. split; [reflexivity|]. split_and!; auto.
    exists c. auto.
Qed.

Section CacheInvariant.
Context `{Headers}.

(** The format part of an export, with the allocator's answers used up. *)
Lemma getbuffer_format_total self flags d st :
  descrs st !! descr self = Some d -> oracle st = [] ->
  NDEBUG = true \/ asserts_hold d = true ->
  exists f st', getbuffer_format self flags st = Done f st' /\ oracle st' = [].
Proof.
  intros Hd Ho Ha. unfold getbuffer_format, PyArray_DESCR.
  destruct (has_flags flags PyBUF_FORMAT); [|unfold ret; eauto].
  assert (get_descr (descr self) st = Done d st) as Eg
    by (unfold get_descr; rewrite Hd; reflexivity).
  rewrite (bind_step _ _ _ _ _ Eg).
  destruct (is_null (buffer_format d)); [|unfold ret; eauto].
  destruct (format_chars d 0) as [[r out] off'] eqn:Ef.
  destruct (translator_writes d st (mk_tmp NULL 0 0) [] 0 r out off' Ho
              eq_refl Ha Ef) as (s' & st' & E & Ho' & Hi).
  rewrite (bind_step _ _ _ _ _ E).
  destruct (negb (r =? 0)); [unfold ret; eauto|].
  destruct (_append_char_ok st' s' _ NUL Ho' Hi) as (s2 & st2 & E2 & Ho2 & _).
  rewrite (bind_step _ _ _ _ _ E2).
  unfold bind, put_descr, ret. eauto.
Qed.

(** X21.  The exporter keeps the cache well formed.  On an array with at
    least [nd] extents and strides whose cache is absent or well formed, a
    call of [array_getbuffer] with a view returns (no allocation failing, an
    [assert] compiled in holding), whatever the request and whatever the
    result; afterwards the array has a well-formed cache, the same layout
    and descriptor, and the descriptor differs at most in its format
    pointer: every condition holds again for the next call. *)
Theorem exports_keep_cache_well_formed obj self d view flags st :
  arrays st !! obj = Some self -> descrs st !! descr self = Some d ->
  cache_well_formed st self -> array_well_formed self ->
  oracle st = [] -> NDEBUG = true \/ asserts_hold d = true ->
  exists r v st' a' p,
    array_getbuffer obj (Some view) flags st = Done (r, Some v) st'
    /\ arrays st' !! obj = Some a'
    /\ descrs st' !! descr a' = Some (with_buffer_format p d)
    /\ cache_well_formed st' a' /\ buffer_info a' <> NULL
    /\ (nd a' = nd self /\ dimensions a' = dimensions self
        /\ strides a' = strides self /\ descr a' = descr self)
    /\ oracle st' = []
    /\ asserts_hold (with_buffer_format p d) = asserts_hold d.
Proof.
  intros Hself Hd Hcwf Hawf Ho Ha.
  pose proof (lookup_lt_Some _ _ _ Hself) as Hobj.
  pose proof (lookup_lt_Some _ _ _ Hd) as Hdlt.
  assert (with_buffer_format (buffer_format d) d = d) as Hid
    by (destruct d; reflexivity).
  assert (forall p, asserts_hold (with_buffer_format p d) = asserts_hold d)
    as Hsame by (intros p; destruct d; reflexivity).
  (* the cache struct *)
  assert (exists cb st1,
            getbuffer_cache obj self st = Done (Some (cb, 0)) st1
            /\ cache_ok (mem st1) cb /\ oracle st1 = []
            /\ descrs st1 = descrs st
            /\ arrays st1
               = <[obj := with_buffer_info (Some (cb, 0)) self]> (arrays st))
    as (cb & st1 & Ec & Hok1 & Ho1 & Hd1 & Ha1).
  { destruct Hcwf as [Hnull|(cb & Hbi & Hok)].
    - exists (length (mem st)). eexists. unfold getbuffer_cache.
      rewrite Hnull. simpl.
      rewrite (bind_step _ _ _ _ _ (malloc_ok _ _ Ho)).
      unfold bind, store_cache, put_array, ret. simpl.
      rewrite list_lookup_middle by reflexivity.
      split; [reflexivity|]. simpl. split_and!; auto.
      exists (mk_buffer_data NULL 0 NULL NULL). simpl. split_and!; auto; [|lia].
      apply list_lookup_insert_eq. rewrite length_app. simpl. lia.
    - exists cb, st. unfold getbuffer_cache. rewrite Hbi. simpl. unfold ret.
      split; [reflexivity|]. split_and!; auto.
      rewrite <- Hbi, with_buffer_info_id, list_insert_id; auto. }
  set (a1 := with_buffer_info (Some (cb, 0)) self) in *.
  assert (arrays st1 !! obj = Some a1) as Hs1
    by (rewrite Ha1; apply list_lookup_insert_eq; exact Hobj).
  assert (forall st2 p,
            arrays st2 = arrays st1 -> cache_ok (mem st2) cb ->
            descrs st2 !! descr self = Some (with_buffer_format p d) ->
            oracle st2 = [] ->
            arrays st2 !! obj = Some a1
            /\ descrs st2 !! descr a1 = Some (with_buffer_format p d)
            /\ cache_well_formed st2 a1 /\ buffer_info a1 <> NULL
            /\ (nd a1 = nd self /\ dimensions a1 = dimensions self
                /\ strides a1 = strides self /\ descr a1 = descr self)
            /\ oracle st2 = []
            /\ asserts_hold (with_buffer_format p d) = asserts_hold d) as Hfail.
  { intros st2 p Ha2 Hok2 Hd2 Ho2.
    split; [rewrite Ha2; exact Hs1|]. split; [exact Hd2|].
    split; [right; exists cb; auto|]. split; [discriminate|].
    split; [repeat split|]. split; [exact Ho2|]. exact (Hsame p). }
  assert (forall st3 p,
            arrays st3 = arrays st1 -> cache_ok (mem st3) cb ->
            descrs st3 !! descr self = Some (with_buffer_format p d) ->
            oracle st3 = [] ->
            let st' := set_arrays (<[obj := Py_INCREF a1]> (arrays st3)) st3 in
            arrays st' !! obj = Some (Py_INCREF a1)
            /\ descrs st' !! descr (Py_INCREF a1)
               = Some (with_buffer_format p d)
            /\ cache_well_formed st' (Py_INCREF a1)
            /\ buffer_info (Py_INCREF a1) <> NULL
            /\ (nd (Py_INCREF a1) = nd self
                /\ dimensions (Py_INCREF a1) = dimensions self
                /\ strides (Py_INCREF a1) = strides self
                /\ descr (Py_INCREF a1) = descr self)
            /\ oracle st' = []
            /\ asserts_hold (with_buffer_format p d) = asserts_hold d) as Hsucc.
  { intros st3 p Ha3 Hok3 Hd3 Ho3. simpl.
    split.
    { apply list_lookup_insert_eq. rewrite Ha3, Ha1, length_insert.
      exact Hobj. }
    split; [exact Hd3|].
    split; [right; exists cb; auto|]. split; [discriminate|].
    split; [repeat split|]. split; [exact Ho3|]. exact (Hsame p). }
  unfold array_getbuffer.
  assert (get_array obj st = Done self st) as Eg
    by (unfold get_array; rewrite Hself; reflexivity).
  rewrite (bind_step _ _ _ _ _ Eg), (bind_step _ _ _ _ _ Ec).
  assert (descrs st1 !! descr self = Some (with_buffer_format (buffer_format d) d))
    as Hd1' by (rewrite Hid, Hd1; exact Hd).
  destruct (has_flags flags PyBUF_C_CONTIGUOUS
            && negb (PyArray_CHKFLAGS self NPY_C_CONTIGUOUS)).
  { unfold bind, PyErr_SetString, ret. eexists _, _, _, _, _.
    split; [reflexivity|]. apply (Hfail _ _ eq_refl Hok1 Hd1' Ho1). }
  destruct (has_flags flags PyBUF_F_CONTIGUOUS
            && negb (PyArray_CHKFLAGS self NPY_F_CONTIGUOUS)).
  { unfold bind, PyErr_SetString, ret. eexists _, _, _, _, _.
    split; [reflexivity|]. apply (Hfail _ _ eq_refl Hok1 Hd1' Ho1). }
  destruct (has_flags flags PyBUF_ANY_CONTIGUOUS
            && negb (PyArray_ISONESEGMENT self)).
  { unfold bind, PyErr_SetString, ret. eexists _, _, _, _, _.
    split; [reflexivity|]. apply (Hfail _ _ eq_refl Hok1 Hd1' Ho1). }
  assert (PyArray_ITEMSIZE self st1 = Done (elsize d) st1) as Ei.
  { unfold PyArray_ITEMSIZE, PyArray_DESCR, bind, get_descr.
    rewrite Hd1, Hd. reflexivity. }
  rewrite (bind_step _ _ _ _ _ Ei).
  assert (PyArray_NBYTES self st1 = Done (elsize d * PyArray_SIZE self) st1) as En.
  { unfold PyArray_NBYTES. rewrite (bind_step _ _ _ _ _ Ei). reflexivity. }
  rewrite (bind_step _ _ _ _ _ En).
  destruct (getbuffer_format_total self flags d st1) as (f & st2 & Ef & Ho2);
    auto; [congruence|].
  rewrite (bind_step _ _ _ _ _ Ef).
  pose proof (getbuffer_format_Done _ _ _ _ _ Ef) as (Ha2 & Hext & _).
  pose proof (cache_ok_extends _ _ _ Hext Hok1) as Hok2.
  assert (exists p, descrs st2 !! descr self = Some (with_buffer_format p d))
    as (p & Hd2).
  { destruct (getbuffer_format_descrs _ _ _ _ _ Ef)
      as [Heq|(d0 & p & Hd0 & _ & _ & _ & Hnew)].
    - exists (buffer_format d). rewrite Heq. exact Hd1'.
    - rewrite Hd1, Hd in Hd0. injection Hd0 as <-.
      exists p. rewrite Hnew. apply list_lookup_insert_eq.
      rewrite Hd1. exact Hdlt. }
  destruct f as [f|].
  2:{ unfold ret. eexists _, _, _, _, _. split; [reflexivity|].
      apply (Hfail _ _ Ha2 Hok2 Hd2 Ho2). }
  destruct (has_flags flags PyBUF_STRIDED).
  - destruct (getbuffer_strided_keeps self cb st2 Hok2 Ho2 Hawf)
      as ([shape strs] & st3 & Es & Hok3 & Ha3 & Hd3 & Ho3 & _).
    rewrite (bind_step _ _ _ _ _ Es). simpl.
    assert (get_array obj st3 = Done a1 st3) as Eg3
      by (unfold get_array; rewrite Ha3, Ha2, Hs1; reflexivity).
    rewrite (bind_step _ _ _ _ _ Eg3).
    unfold bind, put_array, ret. eexists _, _, _, _, _.
    split; [reflexivity|].
    apply (Hsucc st3 p); auto; congruence.
  - destruct (PyArray_ISONESEGMENT self).
    + assert (get_array obj st2 = Done a1 st2) as Eg2
        by (unfold get_array; rewrite Ha2, Hs1; reflexivity).
      rewrite (bind_step _ _ _ _ _ Eg2).
      unfold bind, put_array, ret. eexists _, _, _, _, _.
      split; [reflexivity|].
      apply (Hsucc st2 p); auto.
    + unfold bind, PyErr_SetString, ret. eexists _, _, _, _, _.
      split; [reflexivity|]. apply (Hfail _ p); auto.
Qed.

End CacheInvariant.

(** ** The further theorems at concrete inputs *)

(** X1: [append_char_failure_keeps_string] on a full buffer when [realloc]
    fails. *)
Lemma append_char_failure_keeps_string_witness :
  tmp_s full_string <> NULL
  /\ tmp_inv full_string_state full_string
       (list_ascii_of_string "0123456789abcdef")
  /\ 2 * tmp_allocated full_string < 2 ^ 31
  /\ exists st',
       _append_char full_string "g" full_string_state
       = Done (-1, full_string) st'
       /\ mem st' = mem full_string_state.
Proof.
  assert (tmp_s full_string <> NULL) as H1 by discriminate.
  assert (tmp_inv full_string_state full_string
            (list_ascii_of_string "0123456789abcdef")) as H2.
  { split; [reflexivity|]. eexists. split; [reflexivity|].
    repeat split; simpl; lia. }
  assert (2 * tmp_allocated full_string < 2 ^ 31) as H3 by (simpl; lia).
  split; [exact H1|]. split; [exact H2|]. split; [exact H3|].
  destruct (append_char_failure_keeps_string
              full_string "g" _ full_string_state H1 H2 H3)
    as (r & s' & st' & E & _ & [(_ & _ & He)|(-> & -> & Hm & _)]).
  - exfalso. vm_compute in E. injection E as _ _ <-. discriminate He.
  - exists st'. split; [exact E|exact Hm].
Defined.



(** X4: [record_padding_fills_gaps] on [record_a_b]: seven bytes between the
    end of [a] and the start of [b]. *)
Lemma record_padding_fills_gaps_witness :
  laid_out [("a"%string, scalar_descr NPY_UBYTE "|" 1, 0);
            ("b"%string, scalar_descr NPY_DOUBLE "=" 8, 8)] 0 = true
  /\ oracle empty_state = []
  /\ exists s' st',
       _buffer_format_string (H := std_headers true) record_a_b
         (mk_tmp NULL 0 0) 0 empty_state = Done (0, s', 16) st'
       /\ tmp_contents st' s'
          = Some (list_ascii_of_string "T{B:a:xxxxxxx=d:b:}").
Proof.
  split; [reflexivity|]. split; [reflexivity|].
  exact (record_padding_fills_gaps (H := std_headers true) record_a_b _
           empty_state eq_refl eq_refl eq_refl eq_refl (or_introl eq_refl)).
Defined.

(** X5: [record_result_decided_by_names] on a record with a [':'] in a
    field name. *)
Lemma record_result_decided_by_names_witness :
  subarray colon_record = false
  /\ oracle empty_state = []
  /\ exists s' off' st',
       _buffer_format_string (H := std_headers true) colon_record
         (mk_tmp NULL 0 0) 0 empty_state = Done (-1, s', off') st'.
Proof.
  split; [reflexivity|]. split; [reflexivity|].
  exact (record_result_decided_by_names (H := std_headers true) colon_record _
           empty_state eq_refl eq_refl eq_refl (or_introl eq_refl)).
Defined.

(** X6: [reference_taken_exactly_on_success] on the first export of
    [doubles_state]. *)
Lemma reference_taken_exactly_on_success_witness :
  arrays doubles_state !! 0%nat
  = Some (mk_array 1 4096 1 [2] [8] 0 0x0501 NULL)
  /\ strided_run1
     = Done (0, Some (view_of strided_run1)) (final_state strided_run1)
  /\ exists a', arrays (final_state strided_run1) !! 0%nat = Some a'
                /\ ob_refcnt a' = 2.
Proof.
  assert (strided_run1
          = Done (0, Some (view_of strided_run1)) (final_state strided_run1))
    as E by (vm_compute; reflexivity).
  split; [reflexivity|]. split; [exact E|].
  destruct (reference_taken_exactly_on_success (H := std_headers true) 0%nat
              empty_view 0x19 0 _ _ doubles_state _ eq_refl E)
    as (a' & v & Ha & _ & [(_ & Hc & _)|(Hr & _)] & _).
  - exists a'. split; [exact Ha|exact Hc].
  - discriminate Hr.
Defined.






(** X12: [failed_translation_caches_nothing] on an array of type
    number 0. *)
Lemma failed_translation_caches_nothing_witness :
  arrays bool_state !! 0%nat = Some (mk_array 1 4096 1 [3] [1] 0 0x0501 NULL)
  /\ descrs bool_state !! 0%nat = Some bool_descr
  /\ oracle bool_state = []
  /\ has_flags 0x04 (@PyBUF_FORMAT (std_headers true)) = true
  /\ (format_chars bool_descr 0).1.1 <> 0
  /\ exists v st',
       array_getbuffer (H := std_headers true) 0 (Some empty_view) 0x04
         bool_state = Done (-1, Some v) st'
       /\ view_format v = NULL /\ descrs st' = descrs bool_state.
Proof.
  assert ((format_chars bool_descr 0).1.1 <> 0) as Hfail by discriminate.
  repeat (split; [reflexivity|]). split; [exact Hfail|].
  destruct (failed_translation_caches_nothing (H := std_headers true) 0%nat
              (mk_array 1 4096 1 [3] [1] 0 0x0501 NULL) bool_descr empty_view
              0x04 bool_state eq_refl eq_refl eq_refl (or_introl eq_refl)
              eq_refl eq_refl eq_refl Hfail)
    as (v & st' & a' & E & _ & Hf & Hd & _).
  exists v, st'. auto.
Defined.

(** X13: [contiguity_checked_first] on the slice, asked for C contiguous
    memory. *)
Lemma contiguity_checked_first_witness :
  arrays sliced_state !! 0%nat
  = Some (mk_array 1 4096 2 [2; 2] [32; 8] 0 0x0400 NULL)
  /\ oracle sliced_state = []
  /\ contiguity_error (H := std_headers true) 0x38
       (mk_array 1 4096 2 [2; 2] [32; 8] 0 0x0400 NULL)
     = Some "ndarray is not C contiguous"%string
  /\ exists v st',
       array_getbuffer (H := std_headers true) 0 (Some empty_view) 0x38
         sliced_state = Done (-1, Some v) st'
       /\ pyerr st'
          = Some (PyExc_ValueError, "ndarray is not C contiguous"%string).
Proof.
  repeat (split; [reflexivity|]).
  destruct (contiguity_checked_first (H := std_headers true) 0%nat
              (mk_array 1 4096 2 [2; 2] [32; 8] 0 0x0400 NULL) empty_view 0x38
              "ndarray is not C contiguous" sliced_state
              eq_refl (or_intror eq_refl) eq_refl)
    as (v & st' & a' & E & He & _).
  exists v, st'. auto.
Defined.

(** X14: [dealloc_releases_cache_once] on [doubles_exported], whose cache is
    block 0 and whose snapshot is block 1. *)
Lemma dealloc_releases_cache_once_witness :
  arrays doubles_exported !! 0%nat
  = Some (mk_array 2 4096 1 [2] [8] 0 0x0501 (Some (0%nat, 0)))
  /\ mem doubles_exported !! 0%nat
     = Some (Cache (Some (mk_buffer_data NULL 1 (Some (1%nat, 1))
                            (Some (1%nat, 0)))))
  /\ mem doubles_exported !! 1%nat = Some (Words [2; 8])
  /\ exists st',
       _array_dealloc_buffer_info 0 doubles_exported
       = Done tt st'
       /\ is_freed st' (Some (0%nat, 0)) = true
       /\ is_freed st' (Some (1%nat, 0)) = true
       /\ _array_dealloc_buffer_info 0 st'
          = Done tt st'.
Proof.
  repeat (split; [reflexivity|]).
  destruct (dealloc_releases_cache_once 0%nat
              (mk_array 2 4096 1 [2] [8] 0 0x0501 (Some (0%nat, 0))) 0%nat
              (mk_buffer_data NULL 1 (Some (1%nat, 1)) (Some (1%nat, 0)))
              doubles_exported eq_refl eq_refl eq_refl
              (or_intror (ex_intro _ 1%nat (ex_intro _ [2; 8]
                                              (conj eq_refl eq_refl)))))
    as (st' & E & _ & Hf1 & Hf2 & _ & Hagain).
  exists st'. split; [exact E|]. split; [exact Hf1|].
  split; [|exact Hagain]. apply Hf2. discriminate.
Defined.


(** X16: [cache_struct_made_once] on the first export of [doubles_state]. *)
Lemma cache_struct_made_once_witness :
  arrays doubles_state !! 0%nat
  = Some (mk_array 1 4096 1 [2] [8] 0 0x0501 NULL)
  /\ strided_run1
     = Done (0, Some (view_of strided_run1)) (final_state strided_run1)
  /\ exists a', arrays (final_state strided_run1) !! 0%nat = Some a'
                /\ buffer_info a' <> NULL.
Proof.
  assert (strided_run1
          = Done (0, Some (view_of strided_run1)) (final_state strided_run1))
    as E by (vm_compute; reflexivity).
  split; [reflexivity|]. split; [exact E|].
  destruct (cache_struct_made_once (H := std_headers true) 0%nat empty_view
              0x19 0 _ _ doubles_state _ eq_refl E) as (a' & Ha & Hnn & _).
  exists a'. auto.
Defined.

(** X17: [export_changes_only_format_slot] on the first export of
    [doubles_state] with its format. *)
Lemma export_changes_only_format_slot_witness :
  arrays doubles_state !! 0%nat
  = Some (mk_array 1 4096 1 [2] [8] 0 0x0501 NULL)
  /\ descrs doubles_state !! 0%nat = Some (scalar_descr NPY_DOUBLE "=" 8)
  /\ format_run1
     = Done (0, Some (view_of format_run1)) (final_state format_run1)
  /\ exists p, descrs (final_state format_run1) !! 0%nat
               = Some (with_buffer_format p (scalar_descr NPY_DOUBLE "=" 8)).
Proof.
  assert (format_run1
          = Done (0, Some (view_of format_run1)) (final_state format_run1))
    as E by (vm_compute; reflexivity).
  split; [reflexivity|]. split; [reflexivity|]. split; [exact E|].
  destruct (export_changes_only_format_slot (H := std_headers true) 0%nat
              empty_view 0x04 0 _ _ (scalar_descr NPY_DOUBLE "=" 8)
              doubles_state _ eq_refl eq_refl E) as ((p & Hp & _) & _).
  exists p. exact Hp.
Defined.




(** X21: [exports_keep_cache_well_formed] on a further export of the array
    of [doubles_exported]. *)
Lemma exports_keep_cache_well_formed_witness :
  arrays doubles_exported !! 0%nat
  = Some (mk_array 2 4096 1 [2] [8] 0 0x0501 (Some (0%nat, 0)))
  /\ descrs doubles_exported !! 0%nat = Some (scalar_descr NPY_DOUBLE "=" 8)
  /\ cache_well_formed doubles_exported
       (mk_array 2 4096 1 [2] [8] 0 0x0501 (Some (0%nat, 0)))
  /\ array_well_formed (mk_array 2 4096 1 [2] [8] 0 0x0501 (Some (0%nat, 0)))
  /\ oracle doubles_exported = []
  /\ exists r v st' a',
       array_getbuffer (H := std_headers true) 0 (Some empty_view) 0x19
         doubles_exported = Done (r, Some v) st'
       /\ arrays st' !! 0%nat = Some a' /\ cache_well_formed st' a'.
Proof.
  assert (cache_well_formed doubles_exported
            (mk_array 2 4096 1 [2] [8] 0 0x0501 (Some (0%nat, 0)))) as H1.
  { right. exists 0%nat. split; [reflexivity|].
    exists (mk_buffer_data NULL 1 (Some (1%nat, 1)) (Some (1%nat, 0))).
    split; [reflexivity|]. split; [simpl; lia|].
    right. exists 1%nat, [2; 8]. repeat split. }
  assert (array_well_formed
            (mk_array 2 4096 1 [2] [8] 0 0x0501 (Some (0%nat, 0)))) as H2
    by (repeat split; simpl; lia).
  split; [reflexivity|]. split; [reflexivity|]. split; [exact H1|].
  split; [exact H2|]. split; [reflexivity|].
  destruct (exports_keep_cache_well_formed (H := std_headers true) 0%nat
              (mk_array 2 4096 1 [2] [8] 0 0x0501 (Some (0%nat, 0)))
              (scalar_descr NPY_DOUBLE "=" 8) empty_view 0x19 doubles_exported
              eq_refl eq_refl H1 H2 eq_refl (or_introl eq_refl))
    as (r & v & st' & a' & p & E & Ha & _ & Hc & _).
  exists r, v, st', a'. auto.
Defined.
